(** * SeBS workflow encoder and trigger layer: a shallow embedding

    Sources embedded here:
    - [sebs/faas/fsm.py]      : the state classes, [Generator.parse],
                                [Generator.generate], [Generator.encode_state];
    - [sebs/aws/generator.py] : [list2dict], [SFNGenerator] and its encoders;
    - [sebs/aws/triggers.py]  : the AWS library and HTTP triggers;
    - [sebs/azure/triggers.py]: the Azure HTTP, queue and storage triggers.

    Python objects are modelled by the type [json] (the values [json.load]
    produces and the encoders build), exceptions by [exn], and a call that may
    raise by the [res] type. *)

From Stdlib Require Import ZArith PrimFloat Uint63 Ascii.
From stdpp Require Import base option list strings pretty gmap.

Set Warnings "-register-all".
Local Open Scope string_scope.
Local Open Scope list_scope.

(** ** Python values *)

Module Py.

(** What [json.load] returns and what the encoders assemble: dictionaries keep
    their insertion order, as Python's [dict] does. *)
Inductive json : Type :=
| JNull
| JBool (b : bool)
| JInt (z : Z)
| JFloat (f : float)
| JStr (s : string)
| JList (l : list json)
| JDict (d : list (string * json)).

(** The exceptions of the embedded code.  [KeyError] carries the missing key. *)
Inductive exn : Type :=
| KeyError (k : json)
| IndexError
| TypeError
| ValueError
| AttributeError
| AssertionError
| RuntimeError
| NotImplementedError.

(** The class names along the method resolution order of each exception. *)
Definition exn_mro (e : exn) : list string :=
  match e with
  | KeyError _ => ["KeyError"; "LookupError"; "Exception"; "BaseException"]
  | IndexError => ["IndexError"; "LookupError"; "Exception"; "BaseException"]
  | TypeError => ["TypeError"; "Exception"; "BaseException"]
  | ValueError => ["ValueError"; "Exception"; "BaseException"]
  | AttributeError => ["AttributeError"; "Exception"; "BaseException"]
  | AssertionError => ["AssertionError"; "Exception"; "BaseException"]
  | RuntimeError => ["RuntimeError"; "Exception"; "BaseException"]
  | NotImplementedError =>
      ["NotImplementedError"; "RuntimeError"; "Exception"; "BaseException"]
  end.

(** [isinstance(e, cls)] for an exception [e] and a class named [cls]. *)
Definition is_a (cls : string) (e : exn) : bool :=
  bool_decide (cls ∈ exn_mro e).

Inductive res (A : Type) : Type :=
| Ok (a : A)
| Raise (e : exn).
Arguments Ok {A} a.
Arguments Raise {A} e.

Definition rbind {A B} (m : res A) (k : A -> res B) : res B :=
  match m with
  | Ok a => k a
  | Raise e => Raise e
  end.

Definition raises {A} (m : res A) : bool :=
  match m with Ok _ => false | Raise _ => true end.

(** [raises_a cls m]: the call [m] raised an exception that
    [except cls] would catch. *)
Definition raises_a {A} (cls : string) (m : res A) : bool :=
  match m with Ok _ => false | Raise e => is_a cls e end.

(** [for x in xs: f(x)], collecting the results, stopping at the first raise. *)
Fixpoint rmap {A B} (f : A -> res B) (xs : list A) : res (list B) :=
  match xs with
  | [] => Ok []
  | x :: xs' =>
      rbind (f x) (fun y => rbind (rmap f xs') (fun ys => Ok (y :: ys)))
  end.

(** Truth value of an object, as [if obj:] and [not obj] test it. *)
Definition truthy (v : json) : bool :=
  match v with
  | JNull => false
  | JBool b => b
  | JInt z => negb (z =? 0)%Z
  | JFloat f => negb (PrimFloat.eqb f PrimFloat.zero)
  | JStr s => negb (String.eqb s "")
  | JList l => match l with [] => false | _ => true end
  | JDict d => match d with [] => false | _ => true end
  end.

(** Lists and dictionaries are unhashable: used as a key they raise
    [TypeError]; every other value is a legal key. *)
Definition hashable (v : json) : bool :=
  match v with
  | JList _ | JDict _ => false
  | _ => true
  end.

(** *** Dictionaries with string keys, in insertion order *)

Fixpoint dict_get {V} (k : string) (d : list (string * V)) : option V :=
  match d with
  | [] => None
  | (k', v) :: d' => if String.eqb k k' then Some v else dict_get k d'
  end.

(** [d[k] = v]: an existing key keeps its position, a new one goes last. *)
Fixpoint dict_set {V} (k : string) (v : V) (d : list (string * V))
  : list (string * V) :=
  match d with
  | [] => [(k, v)]
  | (k', v') :: d' =>
      if String.eqb k k' then (k', v) :: d' else (k', v') :: dict_set k v d'
  end.

(** [del d[k]] on a key that is present. *)
Fixpoint dict_del {V} (k : string) (d : list (string * V))
  : list (string * V) :=
  match d with
  | [] => []
  | (k', v') :: d' =>
      if String.eqb k k' then d' else (k', v') :: dict_del k d'
  end.

(** A dictionary display or comprehension: the pairs are stored left to
    right, a repeated key overwriting the earlier value. *)
Definition dict_of {V} (kvs : list (string * V)) : list (string * V) :=
  fold_left (fun d kv => dict_set (fst kv) (snd kv) d) kvs [].

(** [obj[k]] with a string literal [k]. *)
Definition getitem (obj : json) (k : string) : res json :=
  match obj with
  | JDict d =>
      match dict_get k d with
      | Some v => Ok v
      | None => Raise (KeyError (JStr k))
      end
  | _ => Raise TypeError
  end.

(** [obj[k] = v] with a string literal [k]. *)
Definition setitem (obj : json) (k : string) (v : json) : res json :=
  match obj with
  | JDict d => Ok (JDict (dict_set k v d))
  | _ => Raise TypeError
  end.

(** [obj == n] and [obj == s] for an integer and a string literal. *)
Definition eq_int (obj : json) (n : Z) : bool :=
  match obj with
  | JInt z => (z =? n)%Z
  | JBool b => ((if b then 1 else 0) =? n)%Z
  | JFloat f => PrimFloat.eqb f (PrimFloat.of_uint63 (Uint63.of_Z n))
  | _ => false
  end.

Definition eq_str (obj : json) (s : string) : bool :=
  match obj with
  | JStr s' => String.eqb s' s
  | _ => false
  end.

(** [obj.get(k)]: only dictionaries have the method. *)
Definition get_or_none (obj : json) (k : string) : res json :=
  match obj with
  | JDict d => Ok (default JNull (dict_get k d))
  | _ => Raise AttributeError
  end.

(** [obj.items()]. *)
Definition items (obj : json) : res (list (string * json)) :=
  match obj with
  | JDict d => Ok d
  | _ => Raise AttributeError
  end.

Definition chars (s : string) : list json :=
  map (fun c => JStr (String c EmptyString)) (String.list_ascii_of_string s).

(** [for c in obj]: lists give their elements, dictionaries their keys,
    strings their characters; nothing else is iterable. *)
Definition iterate (obj : json) : res (list json) :=
  match obj with
  | JList l => Ok l
  | JDict d => Ok (map (fun kv => JStr (fst kv)) d)
  | JStr s => Ok (chars s)
  | _ => Raise TypeError
  end.

(** [prefix + obj] for a string literal [prefix]. *)
Definition str_add (prefix : string) (obj : json) : res string :=
  match obj with
  | JStr s => Ok (prefix +:+ s)
  | _ => Raise TypeError
  end.

(** [s.split(",")]. *)
Fixpoint split_comma (s : string) : list string :=
  match s with
  | EmptyString => [EmptyString]
  | String c s' =>
      if Ascii.eqb c "," then EmptyString :: split_comma s'
      else match split_comma s' with
           | [] => [String c EmptyString]
           | w :: ws => String c w :: ws
           end
  end.

(** [table[key]] for a table with string keys and an arbitrary object [key]. *)
Definition lookup_key {V} (table : string -> option V) (key : json) : res V :=
  match key with
  | JStr s =>
      match table s with
      | Some v => Ok v
      | None => Raise (KeyError key)
      end
  | _ => if hashable key then Raise (KeyError key) else Raise TypeError
  end.

End Py.
Import Py.

Notation "x <- m ;; k" := (rbind m (fun x => k))
  (at level 100, m at next level, right associativity).

(** ** The state graph: [sebs/faas/fsm.py] *)

Module Task.
Record t : Type := Build { name : string; func_name : json; next : json }.

Definition deserialize (name : string) (payload : json) : res t :=
  f <- getitem payload "func_name";;
  n <- get_or_none payload "next";;
  Ok (Build name f n).
End Task.

Module Case.
Record t : Type := Build { var : json; op : json; val : json; next : json }.

Definition fields : list string := ["var"; "op"; "val"; "next"].

(** [Switch.Case( **payload )]: the keys of [payload] are matched against the
    constructor's four parameters; a missing or an unexpected key is a
    [TypeError], and so is a [payload] that is no mapping. *)
Definition deserialize (payload : json) : res t :=
  match payload with
  | JDict d =>
      if forallb (fun kv => bool_decide (fst kv ∈ fields)) d then
        match dict_get "var" d, dict_get "op" d,
              dict_get "val" d, dict_get "next" d with
        | Some v, Some o, Some x, Some n => Ok (Build v o x n)
        | _, _, _, _ => Raise TypeError
        end
      else Raise TypeError
  | _ => Raise TypeError
  end.
End Case.

Module Switch.
Record t : Type := Build { name : string; cases : list Case.t; default : json }.

Definition deserialize (name : string) (payload : json) : res t :=
  cs <- getitem payload "cases";;
  cs <- iterate cs;;
  cases <- rmap Case.deserialize cs;;
  d <- getitem payload "default";;
  Ok (Build name cases d).
End Switch.

Module Map.
Record t : Type := Build {
  name : string; func_name : json; array : json; next : json
}.

Definition deserialize (name : string) (payload : json) : res t :=
  f <- getitem payload "func_name";;
  a <- getitem payload "array";;
  n <- get_or_none payload "next";;
  Ok (Build name f a n).

(** The read [state.common_params] on an instance of the class: [__init__]
    sets [name], [func_name], [array] and [next], and no line of the
    sources assigns another attribute to a state, so the read raises
    [AttributeError]. *)
Definition common_params (self : t) : res json := Raise AttributeError.
End Map.

Module Loop.
(** Modelled from the spec: the class [Loop], which [generator.py] imports
    from [fsm.py] and [fsm.py] does not declare.  The fields are those
    [encode_loop] reads. *)
Record t : Type := Build {
  name : string; func_name : json; array : json; next : json
}.
End Loop.

Module Parallel.
(** Modelled from the spec: the class [Parallel], which [generator.py]
    imports from [fsm.py] and [fsm.py] does not declare.  The fields are
    those [encode_parallel] reads: [funcs] maps each branch name to the
    state document of the branch. *)
Record t : Type := Build { name : string; funcs : json; next : json }.
End Parallel.

Inductive State : Type :=
| STask (s : Task.t)
| SSwitch (s : Switch.t)
| SMap (s : Map.t)
| SLoop (s : Loop.t)
| SParallel (s : Parallel.t).

Definition State_name (s : State) : string :=
  match s with
  | STask s => Task.name s
  | SSwitch s => Switch.name s
  | SMap s => Map.name s
  | SLoop s => Loop.name s
  | SParallel s => Parallel.name s
  end.

Inductive state_class : Type := ClsTask | ClsSwitch | ClsMap.

Definition _STATE_TYPES (tag : string) : option state_class :=
  if String.eqb tag "task" then Some ClsTask
  else if String.eqb tag "switch" then Some ClsSwitch
  else if String.eqb tag "map" then Some ClsMap
  else None.

Definition State_deserialize (name : string) (payload : json) : res State :=
  tag <- getitem payload "type";;
  cls <- lookup_key _STATE_TYPES tag;;
  match cls with
  | ClsTask => s <- Task.deserialize name payload;; Ok (STask s)
  | ClsSwitch => s <- Switch.deserialize name payload;; Ok (SSwitch s)
  | ClsMap => s <- Map.deserialize name payload;; Ok (SMap s)
  end.

(** [{n: State.deserialize(n, s) for n, s in d.items()}]. *)
Fixpoint deserialize_all (d : list (string * json))
    (acc : list (string * State)) : res (list (string * State)) :=
  match d with
  | [] => Ok acc
  | (n, s) :: d' =>
      st <- State_deserialize n s;;
      deserialize_all d' (dict_set n st acc)
  end.

(** What [Generator.parse] leaves in [self]. *)
Record Graph : Type := { states : list (string * State); root : State }.

(** [Generator.parse], from the loaded definition on. *)
Definition parse (definition : json) : res Graph :=
  sts <- getitem definition "states";;
  sts <- items sts;;
  states <- deserialize_all sts [];;
  r <- getitem definition "root";;
  root <- lookup_key (fun k => dict_get k states) r;;
  Ok {| states := states; root := root |}.

(** ** Encoding: [Generator] in [sebs/faas/fsm.py] *)

(** The source of [uuid.uuid4()]: the draw number [pos] is [draws pos]. *)
Record rng : Type := { draws : nat -> string; pos : nat }.

(** An encoder may raise and may draw identifiers. *)
Definition M (A : Type) : Type := rng -> res (A * rng).

Definition mret {A} (a : A) : M A := fun r => Ok (a, r).

Definition mbind {A B} (m : M A) (k : A -> M B) : M B :=
  fun r => match m r with
           | Ok (a, r') => k a r'
           | Raise e => Raise e
           end.

Definition lift {A} (m : res A) : M A :=
  fun r => match m with
           | Ok a => Ok (a, r)
           | Raise e => Raise e
           end.

Notation "x <~ m ;; k" := (mbind m (fun x => k))
  (at level 100, m at next level, right associativity).

(** [str(uuid.uuid4())[:8]]. *)
Definition uuid4_prefix : M string :=
  fun r => Ok (draws r (pos r), {| draws := draws r; pos := S (pos r) |}).

Fixpoint mmap {A B} (f : A -> M B) (xs : list A) : M (list B) :=
  match xs with
  | [] => mret []
  | x :: xs' => y <~ f x;; ys <~ mmap f xs';; mret (y :: ys)
  end.

(** The positional arguments [generate] hands to [postprocess]. *)
Inductive pyarg : Type :=
| AStates (l : list State)
| APayloads (l : list json).

Module Generator.

(** The methods a concrete generator supplies or overrides, and the
    attributes of [self] that [generate] reads. *)
Class Impl (Self : Type) : Type := {
  states : Self -> list (string * State);
  _export_func : Self -> json -> string;
  encode_task : Self -> Task.t -> M json;
  encode_switch : Self -> Switch.t -> M json;
  encode_map : Self -> Map.t -> M json;
  postprocess : Self -> list pyarg -> res json
}.

Definition encode_state {Self} `{Impl Self} (self : Self) (state : State)
  : M json :=
  match state with
  | STask s => encode_task self s
  | SSwitch s => encode_switch self s
  | SMap s => encode_map self s
  | _ => lift (Raise ValueError)
  end.

(** The loop of [generate]: [payloads] grows by one fragment, or by a list
    of fragments, per state. *)
Fixpoint encode_all {Self} `{Impl Self} (self : Self) (sts : list State)
    (payloads : list json) : M (list json) :=
  match sts with
  | [] => mret payloads
  | s :: rest =>
      obj <~ encode_state self s;;
      match obj with
      | JDict _ => encode_all self rest (payloads ++ [obj])
      | JList l => encode_all self rest (payloads ++ l)
      | _ => lift (Raise ValueError)
      end
  end.

Definition generate {Self} `{Impl Self} (self : Self) : M string :=
  let sts := map snd (states self) in
  payloads <~ encode_all self sts [];;
  definition <~ lift (postprocess self [AStates sts; APayloads payloads]);;
  mret (_export_func self definition).

(** [Generator.postprocess(self, states, payloads)], the implementation a
    subclass inherits unless it overrides it. *)
Definition base_postprocess (sts : list State) (payloads : list json) : json :=
  JDict (dict_of (zip (map State_name sts) payloads)).

End Generator.

(** ** The Step Functions encoder: [sebs/aws/generator.py] *)

(** [list2dict(lst, key)], with [dct] the dictionary built so far.  The
    dictionaries of this model have string keys, and the encoders store
    only strings under ["Name"].  An item whose [key] entry is not a string
    lies outside the model: it is reported as a [TypeError], which is what
    Python does for an unhashable entry (a list, a dictionary), while for a
    hashable one (None, a number) Python stores the item under it.  The
    statements below are about items named by strings. *)
Fixpoint list2dict_from (dct : list (string * json)) (lst : list json)
    (key : string) : res (list (string * json)) :=
  match lst with
  | [] => Ok dct
  | item :: rest =>
      keyvalue <- getitem item key;;
      match item, keyvalue with
      | JDict d, JStr k =>
          list2dict_from (dict_set k (JDict (dict_del key d)) dct) rest key
      | _, _ => Raise TypeError
      end
  end.

Definition list2dict (lst : list json) (key : string)
  : res (list (string * json)) :=
  list2dict_from [] lst key.

Module SFNGenerator.

Record t : Type := Build {
  _func_arns : gmap string string;
  _export_func : json -> string;
  states : list (string * State);
  root : State
}.

(** [branch["States"] = list2dict(branch["States"], "Name")]. *)
Definition reindex_branch (branch : json) : res json :=
  sts <- getitem branch "States";;
  sts <- iterate sts;;
  d <- list2dict sts "Name";;
  match branch with
  | JDict b => Ok (JDict (dict_set "States" (JDict d) b))
  | _ => Raise TypeError
  end.

(** The body of the loop over [state_payloads]: the branches of a fragment
    that has the key ["Branches"] are re-indexed in place. *)
Definition reindex_branches (frag : json) : res json :=
  match frag with
  | JDict d =>
      match dict_get "Branches" d with
      | Some bs =>
          l <- iterate bs;;
          l' <- rmap reindex_branch l;;
          match bs with
          | JList _ => Ok (JDict (dict_set "Branches" (JList l') d))
          | _ => Ok frag
          end
      | None => Ok frag
      end
  | _ => Raise TypeError
  end.

Fixpoint reindex_all (d : list (string * json))
  : res (list (string * json)) :=
  match d with
  | [] => Ok []
  | (name, frag) :: d' =>
      frag' <- reindex_branches frag;;
      rest <- reindex_all d';;
      Ok ((name, frag') :: rest)
  end.

(** The body of [SFNGenerator.postprocess(self, payloads)]. *)
Definition postprocess_body (self : t) (payloads : list json) : res json :=
  state_payloads <- list2dict payloads "Name";;
  state_payloads <- reindex_all state_payloads;;
  Ok (JDict [("Comment", JStr "SeBS auto-generated benchmark");
             ("StartAt", JStr (State_name (root self)));
             ("States", JDict state_payloads)]).

(** [SFNGenerator.postprocess] takes one positional argument besides
    [self]: a call with any other number of arguments is a [TypeError]
    before the body runs, and a list of state objects in the place of
    [payloads] fails at the first [item[key]]. *)
Definition postprocess (self : t) (args : list pyarg) : res json :=
  match args with
  | [arg] =>
      match arg with
      | APayloads payloads => postprocess_body self payloads
      | AStates [] => postprocess_body self []
      | AStates (_ :: _) => Raise TypeError
      end
  | _ => Raise TypeError
  end.

Definition next_or_end (next : json) (payload : list (string * json))
  : list (string * json) :=
  if truthy next then dict_set "Next" next payload
  else dict_set "End" (JBool true) payload.

Definition encode_task (self : t) (state : Task.t) : res json :=
  resource <- lookup_key (fun k => _func_arns self !! k) (Task.func_name state);;
  let payload :=
    [("Name", JStr (Task.name state));
     ("Type", JStr "Task");
     ("Resource", JStr resource);
     ("Parameters", JDict [("request_id.$", JStr "$.request_id");
                           ("payload.$", JStr "$.payload")]);
     ("ResultPath", JStr "$.payload")] in
  Ok (JDict (next_or_end (Task.next state) payload)).

Definition comp (op : string) : option string :=
  if String.eqb op "<" then Some "LessThan"
  else if String.eqb op "<=" then Some "LessThanEquals"
  else if String.eqb op "==" then Some "Equals"
  else if String.eqb op ">=" then Some "GreaterThanEquals"
  else if String.eqb op ">" then Some "GreaterThan"
  else None.

(** [isinstance(v, numbers.Number)]: [bool] is a subclass of [int]. *)
Definition is_number (v : json) : bool :=
  match v with
  | JBool _ | JInt _ | JFloat _ => true
  | _ => false
  end.

Definition _encode_case (case : Case.t) : res json :=
  let type := if is_number (Case.val case) then "Numeric" else "String" in
  c <- lookup_key comp (Case.op case);;
  let cond := type +:+ c in
  variable <- str_add "$.payload" (Case.var case);;
  Ok (JDict (dict_of [("Variable", JStr variable);
                      (cond, Case.val case);
                      ("Next", Case.next case)])).

Definition encode_switch (self : t) (state : Switch.t) : res json :=
  choises <- rmap _encode_case (Switch.cases state);;
  Ok (JDict [("Name", JStr (Switch.name state));
             ("Type", JStr "Choice");
             ("Choices", JList choises);
             ("Default", Switch.default state)]).

(** The loop over [params] in [encode_map]. *)
Definition param_entries (params : list string) : list (string * json) :=
  fold_left
    (fun entries param =>
       dict_set (param +:+ ".$") (JStr ("$.payload." +:+ param)) entries)
    params
    [("array_element.$", JStr "$$.Map.Item.Value")].

(** The [Parameters] of a map fragment once the branch on the value of
    [state.common_params] has run (lines 138 to 146): the encoder splits a
    string at its commas, and a truthy value without [split] (a list, a
    number, a dictionary) raises [AttributeError]. *)
Definition map_parameters (common_params : json)
  : res (list (string * json)) :=
  let parameters := [("request_id.$", JStr "$.request_id")] in
  if truthy common_params then
    match common_params with
    | JStr s =>
        Ok (dict_set "payload" (JDict (param_entries (split_comma s)))
              parameters)
    | _ => Raise AttributeError
    end
  else Ok (dict_set "payload.$" (JStr "$$.Map.Item.Value") parameters).

(** The body of [encode_map], with the outcome of the read
    [state.common_params] at line 138 as [common_params]: the value of the
    attribute on an object that has it, the exception on one that has not.
    The identifier is drawn and the dictionary display above the read is
    evaluated before the attribute is looked up. *)
Definition encode_map_on (common_params : res json) (self : t)
    (state : Map.t) : M json :=
  u <~ uuid4_prefix;;
  let map_func_name := "func_" +:+ u in
  items_path <~ lift (str_add "$.payload." (Map.array state));;
  resource <~ lift (lookup_key (fun k => _func_arns self !! k)
                      (Map.func_name state));;
  result_path <~ lift (str_add "$.payload." (Map.array state));;
  common_params <~ lift common_params;;
  parameters <~ lift (map_parameters common_params);;
  let payload :=
    [("Name", JStr (Map.name state));
     ("Type", JStr "Map");
     ("ItemsPath", JStr items_path);
     ("Parameters", JDict parameters);
     ("Iterator",
      JDict [("StartAt", JStr map_func_name);
             ("States",
              JDict [(map_func_name,
                      JDict [("Type", JStr "Task");
                             ("Resource", JStr resource);
                             ("End", JBool true)])])]);
     ("ResultPath", JStr result_path)] in
  mret (JDict (next_or_end (Map.next state) payload)).

(** [encode_map] on a [Map] of [fsm.py]. *)
Definition encode_map (self : t) (state : Map.t) : M json :=
  encode_map_on (Map.common_params state) self state.

#[global] Instance impl : Generator.Impl t := {|
  Generator.states := states;
  Generator._export_func := _export_func;
  Generator.encode_task := fun self s => lift (encode_task self s);
  Generator.encode_switch := fun self s => lift (encode_switch self s);
  Generator.encode_map := encode_map;
  Generator.postprocess := postprocess
|}.

Definition encode_loop (self : t) (state : Loop.t) : M json :=
  let map_state :=
    Map.Build (Loop.name state) (Loop.func_name state) (Loop.array state)
      (Loop.next state) in
  payload <~ encode_map self map_state;;
  payload <~ lift (setitem payload "MaxConcurrency" (JInt 1));;
  payload <~ lift (setitem payload "ResultSelector" (JDict []));;
  u <~ uuid4_prefix;;
  payload <~ lift (setitem payload "ResultPath" (JStr ("$." +:+ u)));;
  mret payload.

(** [func["ResultPath"] = "$." + func["Name"]]. *)
Definition set_result_path (func : json) : res json :=
  name <- getitem func "Name";;
  path <- str_add "$." name;;
  setitem func "ResultPath" (JStr path).

(** [parallel_funcs[i]]. *)
Definition nth_func (parallel_funcs : list json) (i : nat) : res json :=
  match parallel_funcs !! i with
  | Some f => Ok f
  | None => Raise IndexError
  end.

(** [parallel_funcs[i]["Name"]], which the display of [encode_parallel]
    evaluates six times. *)
Definition func_name (parallel_funcs : list json) (i : nat) : res string :=
  f <- nth_func parallel_funcs i;;
  n <- getitem f "Name";;
  str_add "" n.

Definition encode_parallel (self : t) (state : Parallel.t) : M json :=
  d <~ lift (items (Parallel.funcs state));;
  sts <~ lift (deserialize_all d []);;
  parallel_funcs <~ mmap (Generator.encode_state self) (map snd sts);;
  parallel_funcs <~ lift (rmap set_result_path parallel_funcs);;
  start0 <~ lift (func_name parallel_funcs 0);;
  f0 <~ lift (nth_func parallel_funcs 0);;
  start1 <~ lift (func_name parallel_funcs 1);;
  f1 <~ lift (nth_func parallel_funcs 1);;
  let payload :=
    [("Name", JStr (Parallel.name state));
     ("Type", JStr "Parallel");
     ("Branches",
      JList [JDict [("StartAt", JStr start0); ("States", JList [f0])];
             JDict [("StartAt", JStr start1); ("States", JList [f1])]]);
     ("ResultSelector",
      JDict [("payload",
              JDict (dict_of
                       [(start0 +:+ ".$", JStr ("$[0]." +:+ start0));
                        (start1 +:+ ".$", JStr ("$[1]." +:+ start1))]));
             ("request_id.$", JStr "$[0].request_id")])] in
  mret (JDict (next_or_end (Parallel.next state) payload)).

End SFNGenerator.

(** ** Triggers: [sebs/aws/triggers.py] and [sebs/azure/triggers.py]

    The triggers talk to code that is not among the sources (the cloud
    clients, [AzureQueue], [ExecutionResult], [Trigger._http_invoke], the
    standard library's [json], [base64] and [datetime]).  That code is taken
    as a parameter: the class [Platform] holds the opaque handles and the
    pure helpers, the class [World] the answers of the environment, each a
    function of the effects performed so far.  Calls to the logger are left
    out. *)

Inductive QueueType : Type := TRIGGER | RESULT.

Class Platform : Type := {
  (** the deployment client of [sebs.aws.aws] *)
  AWS : Type;
  (** [AzureResources.Storage], with its connection string *)
  Storage : Type;
  connection_string : Storage -> json;
  (** [sebs.azure.queue.AzureQueue]; its objects have the default truth
      value of Python objects, true *)
  AzureQueue : Type;
  AzureQueue_init : json -> QueueType -> json -> json -> AzureQueue;
  AzureQueue_serialize : AzureQueue -> json;
  AzureQueue_deserialize : json -> res AzureQueue;
  (** [sebs.faas.function.ExecutionResult] *)
  ExecutionResult : Type;
  from_times : Z -> Z -> ExecutionResult;
  set_request_id : ExecutionResult -> json -> ExecutionResult;
  set_failure : ExecutionResult -> ExecutionResult;
  parse_benchmark_output : ExecutionResult -> json -> res ExecutionResult;
  parse_aws_report : string -> ExecutionResult -> res ExecutionResult;
  (** [json.dumps], [json.loads], [base64], [str] *)
  json_dumps : json -> string;
  json_loads : json -> res json;
  b64encode : string -> string;
  b64decode : json -> res string;
  str_of : json -> string
}.

(** The effects of the triggers, in the order they happen. *)
Inductive event `{Platform} : Type :=
| CreateQueue (q : AzureQueue)
| CreateContainer (account_url : string) (container : json)
| SendMessage (q : AzureQueue) (msg : string)
| ReceiveMessage (q : AzureQueue)
| Sleep (secs : Z)
| WriteFile (file_name : string) (content : json)
| UploadBlob (account_url : string) (container : json) (blob : string)
| HttpInvoke (payload url : json)
| WaitForFunction (name : json)
| LambdaInvoke (args : list (string * json))
| StartExecution (arn : json) (input : string)
| DescribeExecution (arn : json).

Definition trace `{Platform} : Type := list event.

Class World `{Platform} : Type := {
  (** [datetime.datetime.now()] *)
  now : trace -> Z;
  (** what [receive_message] returns on a queue; a receive that raises is
      not part of this model, which follows the runs in which the queue
      client answers *)
  receive_message : AzureQueue -> trace -> string;
  (** what [Trigger._http_invoke(payload, url)] returns or raises *)
  _http_invoke : json -> json -> trace -> res ExecutionResult;
  (** the answers of the Lambda and Step Functions clients *)
  lambda_invoke : list (string * json) -> trace -> res json;
  start_execution : json -> string -> trace -> res json;
  describe_execution : json -> trace -> res json
}.

(** A routine runs on the effects so far and leaves its own behind; [None]
    stands for a loop still running when the fuel is spent. *)
Definition routine `{Platform} (A : Type) : Type :=
  nat -> trace -> option (res A * trace).

(** What [concurrent.futures.ThreadPoolExecutor().submit(f, x)] hands back:
    the call [f(x)], left to a worker. *)
Inductive Future `{Platform} (A : Type) : Type :=
| Submitted (work : routine A).
Arguments Submitted {_ A} work.

Definition submit `{Platform} {A B} (f : B -> routine A) (x : B) : Future A :=
  Submitted (f x).

(** [fut.result()]: the outcome of the submitted call, a raise included. *)
Definition result `{Platform} {A} (fut : Future A) : routine A :=
  match fut with Submitted work => work end.

(** [assert obj] for an optional handle. *)
Definition assert_some {A} (o : option A) : res A :=
  match o with
  | Some a => Ok a
  | None => Raise AssertionError
  end.

(** [assert obj; return obj] for a value. *)
Definition assert_truthy (v : json) : res json :=
  if truthy v then Ok v else Raise AssertionError.

(** An f-string hole: [str(obj)]. *)
Definition fmt `{Platform} (v : json) : string :=
  match v with
  | JStr s => s
  | _ => str_of v
  end.

(** What an [async_invoke] hands back: a future, or the raw answer of the
    platform. *)
Inductive handle `{Platform} : Type :=
| HFuture (fut : Future ExecutionResult)
| HResponse (ret : json).

Module Azure.

Module HTTPTrigger.
Record t `{Platform} : Type := Build {
  url : json;
  _data_storage_account : option Storage
}.

Definition data_storage_account `{Platform} (self : t) : res Storage :=
  assert_some (_data_storage_account self).

(** The caller's [payload] gains the key ["connection_string"]; the posted
    dictionary is the one updated. *)
Definition sync_invoke `{World} (self : t) (payload : json)
  : routine ExecutionResult :=
  fun _ h =>
    match (acct <- data_storage_account self;;
           setitem payload "connection_string" (connection_string acct)) with
    | Ok payload' =>
        Some (_http_invoke payload' (url self) h,
              h ++ [HttpInvoke payload' (url self)])
    | Raise e => Some (Raise e, h)
    end.

Definition async_invoke `{World} (self : t) (payload : json)
  : res (Future ExecutionResult) :=
  Ok (submit (sync_invoke self) payload).

Definition serialize `{Platform} (self : t) : res json :=
  Ok (JDict [("type", JStr "HTTP"); ("url", url self)]).

Definition deserialize `{Platform} (obj : json) : res t :=
  u <- getitem obj "url";;
  Ok (Build _ u None).
End HTTPTrigger.

Module QueueTrigger.
Record t `{Platform} : Type := Build {
  name : json;
  _storage_account : json;
  _region : json;
  _queue : option AzureQueue;
  _result_queue : option AzureQueue
}.

Definition storage_account `{Platform} (self : t) : res json :=
  assert_truthy (_storage_account self).
Definition region `{Platform} (self : t) : res json :=
  assert_truthy (_region self).
Definition queue `{Platform} (self : t) : res AzureQueue :=
  assert_some (_queue self).
Definition result_queue `{Platform} (self : t) : res AzureQueue :=
  assert_some (_result_queue self).

(** [__init__]: a queue that was not handed in is built and created. *)
Definition init `{Platform} (fname storage_account region : json)
    (queue result_queue : option AzureQueue) (h : trace) : res t * trace :=
  let with_result_queue (q : AzureQueue) (h : trace) : res t * trace :=
    match result_queue with
    | Some rq => (Ok (Build _ fname storage_account region (Some q) (Some rq)), h)
    | None =>
        match assert_truthy region with
        | Ok rg =>
            let rq := AzureQueue_init fname RESULT storage_account rg in
            (Ok (Build _ fname storage_account region (Some q) (Some rq)),
             h ++ [CreateQueue rq])
        | Raise e => (Raise e, h)
        end
    end in
  match queue with
  | Some q => with_result_queue q h
  | None =>
      match (sa <- assert_truthy storage_account;;
             rg <- assert_truthy region;;
             Ok (AzureQueue_init fname TRIGGER sa rg)) with
      | Ok q => with_result_queue q (h ++ [CreateQueue q])
      | Raise e => (Raise e, h)
      end
  end.

(** The loop of [sync_invoke]: receive, and sleep only after an empty
    answer. *)
Fixpoint poll `{World} (fuel : nat) (rq : option AzureQueue) (h : trace)
  : option (res string * trace) :=
  match fuel with
  | O => None
  | S fuel' =>
      match assert_some rq with
      | Raise e => Some (Raise e, h)
      | Ok q =>
          let response := receive_message q h in
          let h := h ++ [ReceiveMessage q] in
          if String.eqb response "" then poll fuel' rq (h ++ [Sleep 5])
          else Some (Ok response, h)
      end
  end.

Definition sync_invoke `{World} (self : t) (payload : json)
  : routine ExecutionResult :=
  fun fuel h =>
    let serialized_payload := b64encode (json_dumps payload) in
    let begin := now h in
    match queue self with
    | Raise e => Some (Raise e, h)
    | Ok q =>
        let h := h ++ [SendMessage q serialized_payload] in
        match poll fuel (_result_queue self) h with
        | None => None
        | Some (Raise e, h) => Some (Raise e, h)
        | Some (Ok response, h) =>
            let result := from_times begin (now h) in
            Some (out <- json_loads (JStr response);;
                  parse_benchmark_output result out, h)
        end
    end.

Definition async_invoke `{World} (self : t) (payload : json)
  : res (Future ExecutionResult) :=
  Ok (submit (sync_invoke self) payload).

Definition serialize `{Platform} (self : t) : res json :=
  sa <- storage_account self;;
  rg <- region self;;
  q <- queue self;;
  rq <- result_queue self;;
  Ok (JDict [("type", JStr "Queue");
             ("name", name self);
             ("storage_account", sa);
             ("region", rg);
             ("queue", AzureQueue_serialize q);
             ("result_queue", AzureQueue_serialize rq)]).

Definition deserialize `{Platform} (obj : json) (h : trace) : res t * trace :=
  match (n <- getitem obj "name";;
         sa <- getitem obj "storage_account";;
         rg <- getitem obj "region";;
         q <- getitem obj "queue";;
         q <- AzureQueue_deserialize q;;
         rq <- getitem obj "result_queue";;
         rq <- AzureQueue_deserialize rq;;
         Ok (n, sa, rg, q, rq)) with
  | Ok (n, sa, rg, q, rq) => init n sa rg (Some q) (Some rq) h
  | Raise e => (Raise e, h)
  end.
End QueueTrigger.

Module StorageTrigger.
Record t `{Platform} : Type := Build {
  name : json;
  _storage_account : json;
  _region : json;
  _result_queue : option AzureQueue;
  _container_name : json
}.

Definition storage_account `{Platform} (self : t) : res json :=
  assert_truthy (_storage_account self).
Definition region `{Platform} (self : t) : res json :=
  assert_truthy (_region self).
Definition result_queue `{Platform} (self : t) : res AzureQueue :=
  assert_some (_result_queue self).
Definition container_name `{Platform} (self : t) : res json :=
  assert_truthy (_container_name self).
Definition account_url `{Platform} (self : t) : res string :=
  sa <- storage_account self;;
  Ok ("https://" +:+ fmt sa +:+ ".blob.core.windows.net").

(** [__init__]: without a container name the container is named after the
    function and created; a result queue that was not handed in is built
    and created. *)
Definition init `{Platform} (fname storage_account region : json)
    (result_queue : option AzureQueue) (container_name : json) (h : trace)
  : res t * trace :=
  let with_result_queue (c : json) (h : trace) : res t * trace :=
    match result_queue with
    | Some rq => (Ok (Build _ fname storage_account region (Some rq) c), h)
    | None =>
        match assert_truthy region with
        | Ok rg =>
            let rq := AzureQueue_init fname RESULT storage_account rg in
            (Ok (Build _ fname storage_account region (Some rq) c),
             h ++ [CreateQueue rq])
        | Raise e => (Raise e, h)
        end
    end in
  if truthy container_name then with_result_queue container_name h
  else
    match (sa <- assert_truthy storage_account;;
           c <- assert_truthy fname;;
           Ok ("https://" +:+ fmt sa +:+ ".blob.core.windows.net", c)) with
    | Ok (account_url, c) =>
        with_result_queue fname (h ++ [CreateContainer account_url c])
    | Raise e => (Raise e, h)
    end.

(** The loop of [sync_invoke]: sleep, then receive. *)
Fixpoint poll `{World} (fuel : nat) (rq : option AzureQueue) (h : trace)
  : option (res string * trace) :=
  match fuel with
  | O => None
  | S fuel' =>
      let h := h ++ [Sleep 5] in
      match assert_some rq with
      | Raise e => Some (Raise e, h)
      | Ok q =>
          let response := receive_message q h in
          let h := h ++ [ReceiveMessage q] in
          if String.eqb response "" then poll fuel' rq h
          else Some (Ok response, h)
      end
  end.

Definition sync_invoke `{World} (self : t) (payload : json)
  : routine ExecutionResult :=
  fun fuel h =>
    let file_name := "payload.json" in
    let h := h ++ [WriteFile file_name payload] in
    match (u <- account_url self;;
           c <- container_name self;;
           Ok (u, c)) with
    | Raise e => Some (Raise e, h)
    | Ok (u, c) =>
        let begin := now h in
        let h := h ++ [UploadBlob u c file_name] in
        match poll fuel (_result_queue self) h with
        | None => None
        | Some (Raise e, h) => Some (Raise e, h)
        | Some (Ok response, h) =>
            let result := from_times begin (now h) in
            Some (out <- json_loads (JStr response);;
                  parse_benchmark_output result out, h)
        end
    end.

Definition async_invoke `{World} (self : t) (payload : json)
  : res (Future ExecutionResult) :=
  Ok (submit (sync_invoke self) payload).

Definition serialize `{Platform} (self : t) : res json :=
  sa <- storage_account self;;
  rg <- region self;;
  rq <- result_queue self;;
  c <- container_name self;;
  Ok (JDict [("type", JStr "Storage");
             ("name", name self);
             ("storage_account", sa);
             ("region", rg);
             ("result_queue", AzureQueue_serialize rq);
             ("container_name", c)]).

Definition deserialize `{Platform} (obj : json) (h : trace) : res t * trace :=
  match (n <- getitem obj "name";;
         sa <- getitem obj "storage_account";;
         rg <- getitem obj "region";;
         rq <- getitem obj "result_queue";;
         rq <- AzureQueue_deserialize rq;;
         c <- getitem obj "container_name";;
         Ok (n, sa, rg, rq, c)) with
  | Ok (n, sa, rg, rq, c) => init n sa rg (Some rq) c h
  | Raise e => (Raise e, h)
  end.
End StorageTrigger.

End Azure.

Module AWS.

Module LibraryTrigger.
Record t `{Platform} : Type := Build {
  name : json;
  _deployment_client : option AWS
}.

Definition deployment_client `{Platform} (self : t) : res AWS :=
  assert_some (_deployment_client self).

Definition serialize `{Platform} (self : t) : res json :=
  Ok (JDict [("type", JStr "Library"); ("name", name self)]).

Definition deserialize `{Platform} (obj : json) : res t :=
  n <- getitem obj "name";;
  Ok (Build _ n None).
End LibraryTrigger.

Module FunctionLibraryTrigger.

(** What [sync_invoke] does with the answer [ret] of the platform. *)
Definition read_result `{Platform} (aws_result : ExecutionResult) (ret : json)
  : res ExecutionResult :=
  meta <- getitem ret "ResponseMetadata";;
  rid <- getitem meta "RequestId";;
  let aws_result := set_request_id aws_result rid in
  status <- getitem ret "StatusCode";;
  if negb (eq_int status 200) then Ok (set_failure aws_result)
  else
    match getitem ret "FunctionError" with
    | Ok _ => Ok (set_failure aws_result)
    | Raise _ =>
        log <- getitem ret "LogResult";;
        log <- b64decode log;;
        out <- getitem ret "Payload";;
        function_output <- json_loads out;;
        aws_result <- parse_aws_report log aws_result;;
        body <- getitem function_output "body";;
        match body with
        | JDict _ => parse_benchmark_output aws_result body
        | _ => b <- json_loads body;; parse_benchmark_output aws_result b
        end
    end.

Definition sync_invoke `{World} (self : LibraryTrigger.t) (payload : json)
  : routine ExecutionResult :=
  fun _ h =>
    match LibraryTrigger.deployment_client self with
    | Raise e => Some (Raise e, h)
    | Ok _ =>
        let h := h ++ [WaitForFunction (LibraryTrigger.name self)] in
        let serialized_payload := json_dumps payload in
        let begin := now h in
        let args := [("FunctionName", LibraryTrigger.name self);
                     ("Payload", JStr serialized_payload);
                     ("LogType", JStr "Tail")] in
        let answer := lambda_invoke args h in
        let h := h ++ [LambdaInvoke args] in
        let aws_result := from_times begin (now h) in
        Some (ret <- answer;; read_result aws_result ret, h)
    end.

(** No worker and no [sync_invoke] here: one invocation of type ["Event"],
    whose answer is returned as it is. *)
Definition async_invoke `{World} (self : LibraryTrigger.t) (payload : json)
    (h : trace) : res handle * trace :=
  let serialized_payload := json_dumps payload in
  match LibraryTrigger.deployment_client self with
  | Raise e => (Raise e, h)
  | Ok _ =>
      let args := [("FunctionName", LibraryTrigger.name self);
                   ("InvocationType", JStr "Event");
                   ("Payload", JStr serialized_payload);
                   ("LogType", JStr "Tail")] in
      let answer := lambda_invoke args h in
      let h := h ++ [LambdaInvoke args] in
      (ret <- answer;;
       status <- getitem ret "StatusCode";;
       if negb (eq_int status 202) then Raise RuntimeError
       else Ok (HResponse ret), h)
  end.
End FunctionLibraryTrigger.

Module WorkflowLibraryTrigger.

(** The loop of [sync_invoke]: ask for the status, sleep ten seconds while
    it is ["RUNNING"]. *)
Fixpoint poll `{World} (fuel : nat) (execution_arn : json)
    (aws_result : ExecutionResult) (h : trace)
  : option (res ExecutionResult * trace) :=
  match fuel with
  | O => None
  | S fuel' =>
      let answer := describe_execution execution_arn h in
      let h := h ++ [DescribeExecution execution_arn] in
      match (execution <- answer;; getitem execution "status") with
      | Raise e => Some (Raise e, h)
      | Ok status =>
          if eq_str status "RUNNING"
          then poll fuel' execution_arn aws_result (h ++ [Sleep 10])
          else if eq_str status "FAILED"
               then Some (Ok (set_failure aws_result), h)
               else Some (Ok aws_result, h)
      end
  end.

Definition sync_invoke `{World} (self : LibraryTrigger.t) (payload : json)
  : routine ExecutionResult :=
  fun fuel h =>
    match LibraryTrigger.deployment_client self with
    | Raise e => Some (Raise e, h)
    | Ok _ =>
        let begin := now h in
        let input := json_dumps payload in
        let answer := start_execution (LibraryTrigger.name self) input h in
        let h := h ++ [StartExecution (LibraryTrigger.name self) input] in
        let aws_result := from_times begin (now h) in
        match (ret <- answer;;
               meta <- getitem ret "ResponseMetadata";;
               rid <- getitem meta "RequestId";;
               arn <- getitem ret "executionArn";;
               Ok (set_request_id aws_result rid, arn)) with
        | Raise e => Some (Raise e, h)
        | Ok (aws_result, execution_arn) =>
            poll fuel execution_arn aws_result h
        end
    end.

Definition async_invoke `{World} (self : LibraryTrigger.t) (payload : json)
    (h : trace) : res handle * trace :=
  (Raise NotImplementedError, h).
End WorkflowLibraryTrigger.

Module HTTPTrigger.
Record t : Type := Build { url : json; api_id : json }.

Definition sync_invoke `{World} (self : t) (payload : json)
  : routine ExecutionResult :=
  fun _ h =>
    Some (_http_invoke payload (url self) h,
          h ++ [HttpInvoke payload (url self)]).

Definition async_invoke `{World} (self : t) (payload : json) (h : trace)
  : res handle * trace :=
  (Ok (HFuture (submit (sync_invoke self) payload)), h).

Definition serialize (self : t) : res json :=
  Ok (JDict [("type", JStr "HTTP"); ("url", url self);
             ("api-id", api_id self)]).

Definition deserialize (obj : json) : res t :=
  u <- getitem obj "url";;
  a <- getitem obj "api-id";;
  Ok (Build u a).
End HTTPTrigger.

End AWS.

(** *** The variants behind the [Trigger] interface *)

Module Trigger.

Inductive t `{Platform} : Type :=
| AwsFunctionLibrary (tr : AWS.LibraryTrigger.t)
| AwsWorkflowLibrary (tr : AWS.LibraryTrigger.t)
| AwsHTTP (tr : AWS.HTTPTrigger.t)
| AzureHTTP (tr : Azure.HTTPTrigger.t)
| AzureQueue (tr : Azure.QueueTrigger.t)
| AzureStorage (tr : Azure.StorageTrigger.t).

Inductive cls : Type :=
| FunctionLibraryTrigger
| WorkflowLibraryTrigger
| AwsHTTPTrigger
| AzureHTTPTrigger
| QueueTrigger
| StorageTrigger.

Definition class_of `{Platform} (tr : t) : cls :=
  match tr with
  | AwsFunctionLibrary _ => FunctionLibraryTrigger
  | AwsWorkflowLibrary _ => WorkflowLibraryTrigger
  | AwsHTTP _ => AwsHTTPTrigger
  | AzureHTTP _ => AzureHTTPTrigger
  | AzureQueue _ => QueueTrigger
  | AzureStorage _ => StorageTrigger
  end.

Definition serialize `{Platform} (tr : t) : res json :=
  match tr with
  | AwsFunctionLibrary tr | AwsWorkflowLibrary tr =>
      AWS.LibraryTrigger.serialize tr
  | AwsHTTP tr => AWS.HTTPTrigger.serialize tr
  | AzureHTTP tr => Azure.HTTPTrigger.serialize tr
  | AzureQueue tr => Azure.QueueTrigger.serialize tr
  | AzureStorage tr => Azure.StorageTrigger.serialize tr
  end.

Definition pure_ctor `{Platform} {A} (f : A -> t) (m : res A) (h : trace)
  : res t * trace :=
  (x <- m;; Ok (f x), h).

Definition effectful_ctor `{Platform} {A} (f : A -> t) (m : res A * trace)
  : res t * trace :=
  (x <- fst m;; Ok (f x), snd m).

(** [c.deserialize(obj)] for the class [c]. *)
Definition deserialize `{Platform} (c : cls) (obj : json) (h : trace)
  : res t * trace :=
  match c with
  | FunctionLibraryTrigger =>
      pure_ctor AwsFunctionLibrary (AWS.LibraryTrigger.deserialize obj) h
  | WorkflowLibraryTrigger =>
      pure_ctor AwsWorkflowLibrary (AWS.LibraryTrigger.deserialize obj) h
  | AwsHTTPTrigger => pure_ctor AwsHTTP (AWS.HTTPTrigger.deserialize obj) h
  | AzureHTTPTrigger =>
      pure_ctor AzureHTTP (Azure.HTTPTrigger.deserialize obj) h
  | QueueTrigger =>
      effectful_ctor AzureQueue (Azure.QueueTrigger.deserialize obj h)
  | StorageTrigger =>
      effectful_ctor AzureStorage (Azure.StorageTrigger.deserialize obj h)
  end.

Definition sync_invoke `{World} (tr : t) (payload : json)
  : routine ExecutionResult :=
  match tr with
  | AwsFunctionLibrary tr => AWS.FunctionLibraryTrigger.sync_invoke tr payload
  | AwsWorkflowLibrary tr => AWS.WorkflowLibraryTrigger.sync_invoke tr payload
  | AwsHTTP tr => AWS.HTTPTrigger.sync_invoke tr payload
  | AzureHTTP tr => Azure.HTTPTrigger.sync_invoke tr payload
  | AzureQueue tr => Azure.QueueTrigger.sync_invoke tr payload
  | AzureStorage tr => Azure.StorageTrigger.sync_invoke tr payload
  end.

Definition as_handle `{Platform} (m : res (Future ExecutionResult))
    (h : trace) : res handle * trace :=
  (fut <- m;; Ok (HFuture fut), h).

Definition async_invoke `{World} (tr : t) (payload : json) (h : trace)
  : res handle * trace :=
  match tr with
  | AwsFunctionLibrary tr =>
      AWS.FunctionLibraryTrigger.async_invoke tr payload h
  | AwsWorkflowLibrary tr =>
      AWS.WorkflowLibraryTrigger.async_invoke tr payload h
  | AwsHTTP tr => AWS.HTTPTrigger.async_invoke tr payload h
  | AzureHTTP tr => as_handle (Azure.HTTPTrigger.async_invoke tr payload) h
  | AzureQueue tr => as_handle (Azure.QueueTrigger.async_invoke tr payload) h
  | AzureStorage tr =>
      as_handle (Azure.StorageTrigger.async_invoke tr payload) h
  end.

(** Whether [async_invoke] hands the call [sync_invoke(payload)] to a
    worker: the handle is a future of exactly that call, and nothing has
    happened yet when the handle is returned. *)
Definition offloads_sync `{World} (tr : t) (payload : json) (h : trace)
  : Prop :=
  exists fut, async_invoke tr payload h = (Ok (HFuture fut), h)
              /\ result fut = sync_invoke tr payload.

(** Whether [deserialize(serialize(tr))] gives back the trigger [tr],
    provisioning nothing. *)
Definition round_trips `{Platform} (tr : t) (h : trace) : Prop :=
  exists record, serialize tr = Ok record
                 /\ deserialize (class_of tr) record h = (Ok tr, h).

End Trigger.

(** ** A concrete platform and world, to run the triggers on *)

Module Reference.

Record queue : Type := Queue {
  q_name : json; q_type : QueueType; q_account : json; q_region : json
}.

Definition queue_serialize (q : queue) : json :=
  JDict [("name", q_name q);
         ("type", JStr (match q_type q with
                        | TRIGGER => "trigger"
                        | RESULT => "result"
                        end));
         ("storage_account", q_account q);
         ("region", q_region q)].

Definition queue_deserialize (obj : json) : res queue :=
  n <- getitem obj "name";;
  ty <- getitem obj "type";;
  sa <- getitem obj "storage_account";;
  rg <- getitem obj "region";;
  if eq_str ty "trigger" then Ok (Queue n TRIGGER sa rg)
  else if eq_str ty "result" then Ok (Queue n RESULT sa rg)
  else Raise ValueError.

Record execution_result : Type := Result {
  begin : Z; finish : Z; request_id : json; failure : bool; output : json
}.

Definition quote (s : string) : string :=
  String (ascii_of_nat 34) (s +:+ String (ascii_of_nat 34) "").

(** A compact printer, enough for names, numbers and nesting. *)
Fixpoint dumps (v : json) : string :=
  match v with
  | JNull => "null"
  | JBool b => if b then "true" else "false"
  | JInt z => pretty z
  | JFloat _ => "NaN"
  | JStr s => quote s
  | JList l =>
      "[" +:+
      (fix elements (l : list json) : string :=
         match l with
         | [] => ""
         | x :: l' =>
             dumps x +:+ (match l' with [] => "" | _ => ", " end)
             +:+ elements l'
         end) l +:+ "]"
  | JDict d =>
      "{" +:+
      (fix members (d : list (string * json)) : string :=
         match d with
         | [] => ""
         | (k, x) :: d' =>
             quote k +:+ ": " +:+ dumps x
             +:+ (match d' with [] => "" | _ => ", " end) +:+ members d'
         end) d +:+ "}"
  end.

#[global] Instance platform : Platform := {|
  AWS := unit;
  Storage := json;
  connection_string := fun acct => acct;
  AzureQueue := queue;
  AzureQueue_init := Queue;
  AzureQueue_serialize := queue_serialize;
  AzureQueue_deserialize := queue_deserialize;
  ExecutionResult := execution_result;
  from_times := fun b e => Result b e JNull false JNull;
  set_request_id := fun r rid => Result (begin r) (finish r) rid (failure r) (output r);
  set_failure := fun r => Result (begin r) (finish r) (request_id r) true (output r);
  parse_benchmark_output :=
    fun r out => Ok (Result (begin r) (finish r) (request_id r) (failure r) out);
  parse_aws_report := fun _ r => Ok r;
  json_dumps := dumps;
  json_loads := fun text => Ok text;
  b64encode := fun s => s;
  b64decode := fun v => str_add "" v;
  str_of := dumps
|}.

(** Seconds slept so far. *)
Fixpoint slept (h : trace) : Z :=
  match h with
  | [] => 0
  | Sleep secs :: h' => secs + slept h'
  | _ :: h' => slept h'
  end.

(** Receive attempts and status requests so far. *)
Fixpoint asked (h : trace) : nat :=
  match h with
  | [] => 0
  | ReceiveMessage _ :: h' => S (asked h')
  | DescribeExecution _ :: h' => S (asked h')
  | _ :: h' => asked h'
  end.

(** A world whose clock advances by sleeping only and whose answer is
    ready after [ready] unsuccessful requests. *)
Definition world (ready : nat) : World := {|
  now := slept;
  receive_message :=
    fun _ h => if decide (ready <= asked h)%nat then "{}" else "";
  _http_invoke := fun _ _ h => Ok (from_times (slept h) (slept h));
  lambda_invoke :=
    fun args _ =>
      Ok (JDict [("StatusCode",
                  JInt (match dict_get "InvocationType" args with
                        | Some _ => 202
                        | None => 200
                        end));
                 ("ResponseMetadata", JDict [("RequestId", JStr "req-1")]);
                 ("LogResult", JStr "");
                 ("Payload", JDict [("body", JDict [])])]);
  start_execution :=
    fun _ _ _ =>
      Ok (JDict [("ResponseMetadata", JDict [("RequestId", JStr "req-1")]);
                 ("executionArn", JStr "arn:execution")]);
  describe_execution :=
    fun _ h =>
      Ok (JDict [("status",
                  JStr (if decide (ready <= asked h)%nat then "SUCCEEDED"
                        else "RUNNING"))])
|}.

End Reference.

(** ** Attaching handles after deserializing *)

(** The setter of [AzureTrigger.data_storage_account]. *)
Definition set_data_storage_account `{Platform} (self : Azure.HTTPTrigger.t)
    (data_storage_account : Storage) : Azure.HTTPTrigger.t :=
  Azure.HTTPTrigger.Build _ (Azure.HTTPTrigger.url self)
    (Some data_storage_account).

(** The setter of [LibraryTrigger.deployment_client]. *)
Definition set_deployment_client `{Platform} (self : AWS.LibraryTrigger.t)
    (deployment_client : AWS) : AWS.LibraryTrigger.t :=
  AWS.LibraryTrigger.Build _ (AWS.LibraryTrigger.name self)
    (Some deployment_client).

(** [Azure.cached_benchmark] in [sebs/azure/azure.py]: every trigger of the
    benchmark is given the data storage account (and the logging handlers,
    left out).  On the variants without the property the assignment makes
    an attribute that no method reads. *)
Definition cached_benchmark `{Platform} (data_storage_account : Storage)
    (triggers_all : list Trigger.t) : list Trigger.t :=
  map (fun trigger =>
         match trigger with
         | Trigger.AzureHTTP t =>
             Trigger.AzureHTTP
               (set_data_storage_account t data_storage_account)
         | _ => trigger
         end)
      triggers_all.

(** ** Notions used by the statements *)

(** The variants [State.deserialize] can build. *)
Definition parsed_variant (s : State) : bool :=
  match s with
  | STask _ | SSwitch _ | SMap _ => true
  | _ => false
  end.

(** The variants whose encoders return a fragment. *)
Definition task_or_switch (s : State) : bool :=
  match s with
  | STask _ | SSwitch _ => true
  | _ => false
  end.

(** A clock that does not run backwards and on which a sleep of [s] seconds
    takes at least [s] seconds. *)
Definition clock_counts_sleep `{World} : Prop :=
  forall h e,
    (now h + match e with Sleep s => s | _ => 0 end <= now (h ++ [e]))%Z.


(** What [n] rounds of the workflow trigger's loop leave behind while the
    execution is running. *)
Definition running_polls `{Platform} (arn : json) (n : nat) : trace :=
  concat (replicate n [DescribeExecution arn; Sleep 10]).

(** The seconds slept in a stretch of effects. *)
Definition seconds_slept `{Platform} (h : trace) : Z :=
  foldr (fun e acc => match e with Sleep s => (s + acc)%Z | _ => acc end) 0%Z h.

(** The object [v] is not a key of a table with string keys. *)
Definition not_a_key {V} (table : string -> option V) (v : json) : Prop :=
  match v with
  | JStr k => table k = None
  | _ => True
  end.

(** What [table[v]] raises for such an object. *)
Definition key_error (v : json) : exn :=
  if hashable v then KeyError v else TypeError.

(** What an encoder returned or raised, the generator of identifiers left
    aside. *)
Definition value {A} (m : res (A * rng)) : res A :=
  match m with
  | Ok (a, _) => Ok a
  | Raise e => Raise e
  end.


(** The fragment [frag] is a dictionary whose ["Name"] is the string [n]. *)
Definition named (n : string) (frag : json) : Prop :=
  exists fd, frag = JDict fd /\ dict_get "Name" fd = Some (JStr n).

(** A fragment once [encode_parallel] has pointed its [ResultPath] at its
    own name. *)
Definition with_result_path (frag : json) : json :=
  match frag with
  | JDict fd =>
      match dict_get "Name" fd with
      | Some (JStr n) => JDict (dict_set "ResultPath" (JStr ("$." +:+ n)) fd)
      | _ => frag
      end
  | _ => frag
  end.

(** What [n] unsuccessful rounds of the queue trigger's loop leave behind. *)
Definition empty_polls `{Platform} (q : AzureQueue) (n : nat) : trace :=
  concat (replicate n [ReceiveMessage q; Sleep 5]).

(** A trigger without the handles its persisted record does not carry: the
    deployment client of a library trigger and the data storage account of
    an Azure HTTP trigger, which the caller attaches after deserializing. *)
Definition without_attached_handles `{Platform} (tr : Trigger.t) : Trigger.t :=
  match tr with
  | Trigger.AwsFunctionLibrary t =>
      Trigger.AwsFunctionLibrary
        (AWS.LibraryTrigger.Build _ (AWS.LibraryTrigger.name t) None)
  | Trigger.AwsWorkflowLibrary t =>
      Trigger.AwsWorkflowLibrary
        (AWS.LibraryTrigger.Build _ (AWS.LibraryTrigger.name t) None)
  | Trigger.AzureHTTP t =>
      Trigger.AzureHTTP
        (Azure.HTTPTrigger.Build _ (Azure.HTTPTrigger.url t) None)
  | _ => tr
  end.

(** ** Inputs the statements are run on *)

Module Examples.

Definition constant_rng (u : string) : rng := {| draws := fun _ => u; pos := 0 |}.

Definition counting_rng : rng :=
  {| draws := fun n => "0000000" +:+ pretty n; pos := 0 |}.

Definition task_doc (f : string) (next : list (string * json)) : json :=
  JDict ([("type", JStr "task"); ("func_name", JStr f)] ++ next).

Definition definition_of (root : string) (sts : list (string * json)) : json :=
  JDict [("root", JStr root); ("states", JDict sts)].

Definition generator_of (arns : gmap string string) (g : Graph)
  : SFNGenerator.t :=
  SFNGenerator.Build arns Reference.dumps (states g) (root g).

Definition arns_f : gmap string string := {[ "f" := "arn:aws:lambda:f" ]}.

Definition arns_fgh : gmap string string :=
  <[ "f" := "arn:f" ]> (<[ "g" := "arn:g" ]> {[ "h" := "arn:h" ]}).

Definition graph_of (definition : json) : Graph :=
  match parse definition with
  | Ok g => g
  | Raise _ => {| states := []; root := STask (Task.Build "" JNull JNull) |}
  end.

(** One task whose function is not deployed. *)
Definition one_task : json := definition_of "a" [("a", task_doc "f" [])].

(** A resolved task followed by an unresolved one. *)
Definition two_tasks : json :=
  definition_of "a" [("a", task_doc "f" [("next", JStr "b")]);
                     ("b", task_doc "g" [])].

Definition unknown_tag : json :=
  definition_of "a" [("a", task_doc "f" []);
                     ("b", JDict [("type", JStr "loop")])].

Definition missing_root : json := definition_of "z" [("a", task_doc "f" [])].




Definition a_loop : Loop.t := Loop.Build "l" (JStr "f") (JStr "items") JNull.

Definition a_parallel (branches : list string) : Parallel.t :=
  Parallel.Build "p"
    (JDict (map (fun b => (b, task_doc (String.substring 0 1 b) [])) branches))
    JNull.

Definition sfn (arns : gmap string string) : SFNGenerator.t :=
  SFNGenerator.Build arns Reference.dumps [] (STask (Task.Build "a" JNull JNull)).

Definition result_queue_f : Reference.queue :=
  Reference.Queue (JStr "f") RESULT (JStr "account") (JStr "westeurope").

Definition trigger_queue_f : Reference.queue :=
  Reference.Queue (JStr "f") TRIGGER (JStr "account") (JStr "westeurope").

Definition queue_trigger : Azure.QueueTrigger.t :=
  Azure.QueueTrigger.Build _ (JStr "f") (JStr "account") (JStr "westeurope")
    (Some trigger_queue_f) (Some result_queue_f).

Definition storage_trigger : Azure.StorageTrigger.t :=
  Azure.StorageTrigger.Build _ (JStr "f") (JStr "account")
    (JStr "westeurope") (Some result_queue_f) (JStr "f").

Definition http_trigger : Azure.HTTPTrigger.t :=
  Azure.HTTPTrigger.Build _ (JStr "https://f.azurewebsites.net/api/f")
    (Some (JStr "DefaultEndpointsProtocol=https")).

Definition library_trigger : AWS.LibraryTrigger.t :=
  AWS.LibraryTrigger.Build _ (JStr "f") (Some tt).

Definition a_payload : json := JDict [("size", JInt 3)].

(** The reference platform with a [json.loads] that reads the text of the
    empty dictionary, refuses any other text and leaves a stream that
    stands for its document as it is. *)
Definition loads (text : json) : res json :=
  match text with
  | JStr s => if String.eqb s "{}" then Ok (JDict []) else Raise ValueError
  | v => Ok v
  end.

Definition text_platform : Platform := {|
  AWS := unit;
  Storage := json;
  connection_string := fun acct => acct;
  AzureQueue := Reference.queue;
  AzureQueue_init := Reference.Queue;
  AzureQueue_serialize := Reference.queue_serialize;
  AzureQueue_deserialize := Reference.queue_deserialize;
  ExecutionResult := Reference.execution_result;
  from_times := fun b e => Reference.Result b e JNull false JNull;
  set_request_id :=
    fun r rid =>
      Reference.Result (Reference.begin r) (Reference.finish r) rid
        (Reference.failure r) (Reference.output r);
  set_failure :=
    fun r =>
      Reference.Result (Reference.begin r) (Reference.finish r)
        (Reference.request_id r) true (Reference.output r);
  parse_benchmark_output :=
    fun r out =>
      Ok (Reference.Result (Reference.begin r) (Reference.finish r)
            (Reference.request_id r) (Reference.failure r) out);
  parse_aws_report := fun _ r => Ok r;
  json_dumps := Reference.dumps;
  json_loads := loads;
  b64encode := fun s => s;
  b64decode := fun v => str_add "" v;
  str_of := Reference.dumps
|}.

(** An answer of the Lambda client whose payload holds [body]. *)
Definition answer_with_body (body : json) : list (string * json) :=
  [("StatusCode", JInt 200);
   ("ResponseMetadata", JDict [("RequestId", JStr "req-1")]);
   ("LogResult", JStr "");
   ("Payload", JDict [("body", body)])].

End Examples.

(** * Properties *)

(** ** Dictionaries and strings *)

Lemma dict_get_set_eq {V} (k : string) (v : V) (d : list (string * V)) :
  dict_get k (dict_set k v d) = Some v.
Proof.
  induction d as [|[k' v'] d IH]; simpl.
  - by rewrite String.eqb_refl.
  - destruct (String.eqb k k') eqn:E; simpl; rewrite E; [done|apply IH].
Qed.

Lemma dict_get_set_ne {V} (k k' : string) (v : V) (d : list (string * V)) :
  k <> k' -> dict_get k (dict_set k' v d) = dict_get k d.
Proof.
  intros Hne. induction d as [|[k0 v0] d IH]; simpl.
  - apply String.eqb_neq in Hne. by rewrite Hne.
  - destruct (String.eqb k' k0) eqn:E; simpl.
    + apply String.eqb_eq in E; subst k0.
      apply String.eqb_neq in Hne. by rewrite !Hne.
    + by rewrite IH.
Qed.

Lemma dict_get_set_None {V} (k k' : string) (v : V) (d : list (string * V)) :
  dict_get k (dict_set k' v d) = None <-> k <> k' /\ dict_get k d = None.
Proof.
  destruct (decide (k = k')) as [->|Hne].
  - rewrite dict_get_set_eq. split; [done|]. by intros [? _].
  - rewrite dict_get_set_ne by done. tauto.
Qed.

Lemma length_append (a b : string) :
  String.length (a +:+ b) = (String.length a + String.length b)%nat.
Proof. induction a as [|c a IH]; simpl; [done|by rewrite IH]. Qed.

Lemma append_inj_r (a b s : string) : a +:+ s = b +:+ s -> a = b.
Proof.
  revert b. induction a as [|c a IH]; intros [|c' b] H; simpl in H.
  - done.
  - apply (f_equal String.length) in H.
    rewrite !length_append in H. simpl in H. lia.
  - apply (f_equal String.length) in H.
    rewrite !length_append in H. simpl in H. lia.
  - injection H as -> H. f_equal. by apply IH.
Qed.

Lemma lookup_key_not_a_key {V} (table : string -> option V) (v : json) :
  not_a_key table v -> lookup_key table v = Raise (key_error v).
Proof.
  unfold not_a_key, lookup_key, key_error.
  destruct v; simpl; try done. by intros ->.
Qed.

(** ** The encoding loop and [generate] *)

Section EncodeLoop.
Context {Self : Type} `{Generator.Impl Self}.

Lemma encode_all_app (self : Self) (pre rest : list State)
    (acc : list json) (r : rng) :
  Generator.encode_all self (pre ++ rest) acc r =
  match Generator.encode_all self pre acc r with
  | Ok (payloads, r') => Generator.encode_all self rest payloads r'
  | Raise e => Raise e
  end.
Proof.
  revert acc r. induction pre as [|s pre IH]; intros acc r; simpl; [done|].
  unfold mbind.
  destruct (Generator.encode_state self s r) as [[obj r']|e]; [|done].
  destruct obj; simpl; try done; apply IH.
Qed.

Lemma encode_all_fails_at (self : Self) (pre post : list State) (s : State)
    (acc : list json) (r : rng) (e : exn) :
  (forall r', Generator.encode_state self s r' = Raise e) ->
  exists e',
    Generator.encode_all self (pre ++ s :: post) acc r = Raise e'
    /\ (forall payloads r',
           Generator.encode_all self pre acc r = Ok (payloads, r') -> e' = e).
Proof.
  intros Hs. rewrite encode_all_app.
  destruct (Generator.encode_all self pre acc r) as [[payloads r']|e0].
  - exists e. split; [|done]. simpl. unfold mbind. by rewrite Hs.
  - exists e0. split; [done|]. intros ?? [=].
Qed.
End EncodeLoop.

(** [generate] stops with the exception of the encoding loop, and with a
    [TypeError] at the call of [postprocess] when the loop went through. *)
Lemma generate_outcome (self : SFNGenerator.t) (r : rng) :
  Generator.generate self r =
  match Generator.encode_all self (map snd (SFNGenerator.states self)) [] r with
  | Ok _ => Raise TypeError
  | Raise e => Raise e
  end.
Proof.
  unfold Generator.generate, mbind. simpl.
  destruct (Generator.encode_all _ _ _ _) as [[payloads r']|e]; done.
Qed.

Lemma encode_task_unresolved (self : SFNGenerator.t) (t : Task.t) (r : rng) :
  not_a_key (fun k => SFNGenerator._func_arns self !! k) (Task.func_name t) ->
  Generator.encode_state self (STask t) r
  = Raise (key_error (Task.func_name t)).
Proof.
  intros Hk. simpl. unfold lift, SFNGenerator.encode_task.
  by rewrite (lookup_key_not_a_key _ _ Hk).
Qed.

(** C4, as amended: for every graph and every resolution map, the call
    [generate()] of the Step Functions generator returns no document.  When
    every state encodes, it raises the [TypeError] of calling the one-argument
    [postprocess] with two arguments; when a state fails to encode, it raises
    that state's exception. *)
Theorem generate_raises_type_error_once_encoded :
  forall (self : SFNGenerator.t) (r : rng),
    raises (Generator.generate self r) = true
    /\ Generator.generate self r =
       match Generator.encode_all self
               (map snd (SFNGenerator.states self)) [] r with
       | Ok _ => Raise TypeError
       | Raise e => Raise e
       end.
Proof.
  intros self r. rewrite generate_outcome.
  by destruct (Generator.encode_all _ _ _ _).
Qed.

(** C4 fails as stated: the graph parsed from one task whose function is not
    in the resolution map makes [generate()] raise a [KeyError], which is no
    [TypeError]. *)
Lemma generate_key_error_not_type_error :
  parse Examples.one_task = Ok (Examples.graph_of Examples.one_task)
  /\ value (Generator.generate
              (Examples.generator_of ∅ (Examples.graph_of Examples.one_task))
              (Examples.constant_rng "0badc0de"))
     = Raise (KeyError (JStr "f"))
  /\ raises_a "TypeError"
       (Generator.generate
          (Examples.generator_of ∅ (Examples.graph_of Examples.one_task))
          (Examples.constant_rng "0badc0de")) = false.
Proof. by vm_compute. Qed.

(** C2, as amended: when the graph holds a task whose [func_name] is not a
    key of the resolution map, the encoding loop of [generate()] raises, and
    [generate()] raises the same exception without reaching [postprocess]
    or the export; when the states before the task encode, the exception is
    the [KeyError] of the lookup, carrying the function name ([TypeError]
    for an unhashable name).  It is not a [ReferenceError]. *)
Theorem generate_unresolved_task :
  forall (self : SFNGenerator.t) (pre post : list State) (t : Task.t)
         (r : rng),
    map snd (SFNGenerator.states self) = pre ++ STask t :: post ->
    not_a_key (fun k => SFNGenerator._func_arns self !! k) (Task.func_name t) ->
    exists e,
      Generator.encode_all self (map snd (SFNGenerator.states self)) [] r
      = Raise e
      /\ Generator.generate self r = Raise e
      /\ (forall payloads r',
             Generator.encode_all self pre [] r = Ok (payloads, r') ->
             e = key_error (Task.func_name t)
             /\ is_a "ReferenceError" e = false).
Proof.
  intros self pre post t r Hsts Hk.
  destruct (encode_all_fails_at self pre post (STask t) [] r
              (key_error (Task.func_name t))) as (e & He & Hpre).
  { intros r'. by apply encode_task_unresolved. }
  exists e. rewrite generate_outcome, Hsts, He. do 2 (split; [done|]).
  intros payloads r' Hok. rewrite (Hpre _ _ Hok). split; [done|].
  unfold key_error. by destruct (hashable _).
Qed.

Lemma generate_unresolved_task_witness :
  exists e,
    Generator.generate
      (Examples.generator_of Examples.arns_f
         (Examples.graph_of Examples.two_tasks))
      Examples.counting_rng = Raise e.
Proof.
  destruct (generate_unresolved_task
              (Examples.generator_of Examples.arns_f
                 (Examples.graph_of Examples.two_tasks))
              [STask (Task.Build "a" (JStr "f") (JStr "b"))] []
              (Task.Build "b" (JStr "g") JNull) Examples.counting_rng)
    as (e & _ & He & _).
  - reflexivity.
  - vm_compute. reflexivity.
  - exists e. exact He.
Defined.

(** C2 fails as stated: with the first task resolved and the second one not,
    [generate()] raises [KeyError("g")], which [except ReferenceError] does
    not catch. *)
Lemma generate_unresolved_is_no_reference_error :
  value (Generator.generate
           (Examples.generator_of Examples.arns_f
              (Examples.graph_of Examples.two_tasks))
           Examples.counting_rng)
  = Raise (KeyError (JStr "g"))
  /\ raises_a "ReferenceError"
       (Generator.generate
          (Examples.generator_of Examples.arns_f
             (Examples.graph_of Examples.two_tasks))
          Examples.counting_rng) = false.
Proof. by vm_compute. Qed.

(** ** Parsing *)

Lemma deserialize_all_app (d1 d2 : list (string * json))
    (acc : list (string * State)) :
  deserialize_all (d1 ++ d2) acc =
  (acc' <- deserialize_all d1 acc;; deserialize_all d2 acc').
Proof.
  revert acc. induction d1 as [|[n s] d1 IH]; intros acc; simpl; [done|].
  destruct (State_deserialize n s); simpl; [apply IH|done].
Qed.

Lemma deserialize_all_keys (d : list (string * json))
    (acc sts : list (string * State)) (k : string) :
  deserialize_all d acc = Ok sts ->
  dict_get k sts = None <-> dict_get k d = None /\ dict_get k acc = None.
Proof.
  revert acc. induction d as [|[n s] d IH]; intros acc; simpl.
  - intros [= ->]. tauto.
  - destruct (State_deserialize n s) as [st|]; simpl; [|done].
    intros Hd. rewrite (IH _ Hd), dict_get_set_None.
    destruct (String.eqb k n) eqn:E.
    + apply String.eqb_eq in E. split; [tauto|]. by intros [? _].
    + apply String.eqb_neq in E. tauto.
Qed.

Lemma State_deserialize_unknown_tag (n : string) (s tag : json) :
  getitem s "type" = Ok tag ->
  not_a_key _STATE_TYPES tag ->
  State_deserialize n s = Raise (key_error tag).
Proof.
  intros Htag Hk. unfold State_deserialize. rewrite Htag. simpl.
  by rewrite (lookup_key_not_a_key _ _ Hk).
Qed.

Lemma State_deserialize_name (n : string) (s : json) (st : State) :
  State_deserialize n s = Ok st -> State_name st = n.
Proof.
  unfold State_deserialize.
  destruct (getitem s "type") as [tag|]; simpl; [|done].
  destruct (lookup_key _STATE_TYPES tag) as [[]|]; simpl; [| | |done].
  - unfold Task.deserialize.
    destruct (getitem s "func_name"); simpl; [|done].
    destruct (get_or_none s "next"); simpl; [|done]. by intros [= <-].
  - unfold Switch.deserialize.
    destruct (getitem s "cases") as [cs|]; simpl; [|done].
    destruct (iterate cs) as [l|]; simpl; [|done].
    destruct (rmap Case.deserialize l); simpl; [|done].
    destruct (getitem s "default"); simpl; [|done]. by intros [= <-].
  - unfold Map.deserialize.
    destruct (getitem s "func_name"); simpl; [|done].
    destruct (getitem s "array"); simpl; [|done].
    destruct (get_or_none s "next"); simpl; [|done]. by intros [= <-].
Qed.

(** C3, as amended: [parse] raises the [KeyError] of the failed lookup, and
    no [DefinitionError].  When a state entry carries a type tag outside
    task, switch and map, [parse] raises, and once the entries before it
    deserialize the exception is [KeyError(tag)] ([TypeError] for an
    unhashable tag); when every entry deserializes and [root] names no entry
    of [states], [parse] raises [KeyError(root)] ([TypeError] for an
    unhashable root). *)
Theorem parse_unknown_tag_or_root :
  forall (definition : json) (d : list (string * json)),
    getitem definition "states" = Ok (JDict d) ->
    (forall pre post n s tag,
        d = pre ++ (n, s) :: post ->
        getitem s "type" = Ok tag ->
        not_a_key _STATE_TYPES tag ->
        exists e,
          parse definition = Raise e
          /\ (forall sts, deserialize_all pre [] = Ok sts ->
                          e = key_error tag
                          /\ is_a "KeyError" e = hashable tag))
    /\ (forall sts r,
           deserialize_all d [] = Ok sts ->
           getitem definition "root" = Ok r ->
           not_a_key (fun k => dict_get k d) r ->
           parse definition = Raise (key_error r)
           /\ is_a "KeyError" (key_error r) = hashable r).
Proof.
  intros definition d Hd. split.
  - intros pre post n s tag -> Htag Hk.
    unfold parse. rewrite Hd. simpl. rewrite deserialize_all_app.
    destruct (deserialize_all pre []) as [acc|e0]; simpl.
    + rewrite (State_deserialize_unknown_tag _ _ _ Htag Hk). simpl.
      eexists. split; [done|]. intros _ _. split; [done|].
      unfold key_error. by destruct (hashable tag).
    + eexists. split; [done|]. intros ? [=].
  - intros sts r Hsts Hr Hk. unfold parse. rewrite Hd. simpl.
    rewrite Hsts. simpl. rewrite Hr. simpl.
    rewrite lookup_key_not_a_key.
    + split; [done|]. unfold key_error. by destruct (hashable r).
    + destruct r; simpl in *; try done.
      apply (deserialize_all_keys _ _ _ s Hsts). by split.
Qed.

Lemma parse_unknown_tag_or_root_witness :
  parse Examples.unknown_tag = Raise (KeyError (JStr "loop"))
  /\ parse Examples.missing_root = Raise (KeyError (JStr "z")).
Proof.
  split.
  - destruct (parse_unknown_tag_or_root Examples.unknown_tag
                [("a", Examples.task_doc "f" []);
                 ("b", JDict [("type", JStr "loop")])] eq_refl)
      as [Htag _].
    destruct (Htag [("a", Examples.task_doc "f" [])] [] "b"
                (JDict [("type", JStr "loop")]) (JStr "loop")
                eq_refl eq_refl eq_refl) as (e & He & Hpre).
    destruct (Hpre _ eq_refl) as [-> _]. exact He.
  - destruct (parse_unknown_tag_or_root Examples.missing_root
                [("a", Examples.task_doc "f" [])] eq_refl)
      as [_ Hroot].
    destruct (Hroot _ (JStr "z") eq_refl eq_refl eq_refl) as [He _].
    exact He.
Defined.

(** C3 fails as stated: an entry tagged ["loop"] and a root naming no state
    both make [parse] raise a [KeyError], whose classes do not include a
    [DefinitionError]. *)
Lemma parse_raises_no_definition_error :
  parse Examples.unknown_tag = Raise (KeyError (JStr "loop"))
  /\ raises_a "DefinitionError" (parse Examples.unknown_tag) = false
  /\ parse Examples.missing_root = Raise (KeyError (JStr "z"))
  /\ raises_a "DefinitionError" (parse Examples.missing_root) = false.
Proof. by vm_compute. Qed.

(** ** Encoders and the identifiers they draw *)

(** The exception of [encode_map] is settled before and without the
    identifier it draws. *)
Lemma encode_map_on_raise (e0 : exn) (self : SFNGenerator.t) (m : Map.t) :
  exists e, forall r, SFNGenerator.encode_map_on (Raise e0) self m r = Raise e.
Proof.
  unfold SFNGenerator.encode_map_on, mbind, uuid4_prefix, lift.
  destruct (str_add "$.payload." (Map.array m)) as [items_path|e1];
    [|by exists e1].
  destruct (lookup_key _ (Map.func_name m)) as [resource|e2];
    [|by exists e2].
  by exists e0.
Qed.

Lemma encode_map_raises (self : SFNGenerator.t) (m : Map.t) :
  exists e, forall r, SFNGenerator.encode_map self m r = Raise e.
Proof. apply encode_map_on_raise. Qed.

Lemma encode_loop_raises (self : SFNGenerator.t) (l : Loop.t) :
  exists e, forall r, SFNGenerator.encode_loop self l r = Raise e.
Proof.
  unfold SFNGenerator.encode_loop.
  destruct (encode_map_raises self
              (Map.Build (Loop.name l) (Loop.func_name l) (Loop.array l)
                 (Loop.next l))) as [e He].
  exists e. intros r. unfold mbind. by rewrite He.
Qed.








(** ** Map and loop fragments *)

Lemma dict_get_next_or_end (k : string) (next : json)
    (payload : list (string * json)) :
  k <> "Next" -> k <> "End" ->
  dict_get k (SFNGenerator.next_or_end next payload) = dict_get k payload.
Proof.
  intros H1 H2. unfold SFNGenerator.next_or_end.
  destruct (truthy next); by rewrite dict_get_set_ne.
Qed.


(** On a map state of [fsm.py] whose function resolves, the encoder gets as
    far as the read of [common_params]. *)
Lemma encode_map_resolved (self : SFNGenerator.t) (name f a arn : string)
    (next : json) (r : rng) :
  SFNGenerator._func_arns self !! f = Some arn ->
  SFNGenerator.encode_map self (Map.Build name (JStr f) (JStr a) next) r
  = Raise AttributeError.
Proof.
  intros Hf.
  unfold SFNGenerator.encode_map, SFNGenerator.encode_map_on, mbind,
    uuid4_prefix, lift.
  cbn [Map.array Map.func_name Map.common_params str_add lookup_key].
  by rewrite Hf.
Qed.







(** C9, on its failing input and on every other loop state: [encode_loop]
    returns no fragment.  It builds the [Map] of the loop's name, function,
    array and successor and hands it to [encode_map], which raises before
    [MaxConcurrency], [ResultSelector] and [ResultPath] are set: with the
    function resolved and the array a string, the exception is the
    [AttributeError] of the read [state.common_params]. *)
Theorem encode_loop_returns_no_fragment :
  forall (self : SFNGenerator.t) (l : Loop.t) (r : rng),
    raises (SFNGenerator.encode_loop self l r) = true
    /\ (forall f a arn,
           Loop.func_name l = JStr f ->
           Loop.array l = JStr a ->
           SFNGenerator._func_arns self !! f = Some arn ->
           SFNGenerator.encode_loop self l r = Raise AttributeError).
Proof.
  intros self l r. split.
  - destruct (encode_loop_raises self l) as [e He]. by rewrite He.
  - intros f a arn Hfn Ha Hf. unfold SFNGenerator.encode_loop, mbind.
    rewrite Hfn, Ha.
    by rewrite (encode_map_resolved self (Loop.name l) f a arn
                  (Loop.next l) r Hf).
Qed.

Lemma encode_loop_returns_no_fragment_witness :
  SFNGenerator.encode_loop (Examples.sfn Examples.arns_f) Examples.a_loop
    Examples.counting_rng
  = Raise AttributeError.
Proof.
  destruct (encode_loop_returns_no_fragment (Examples.sfn Examples.arns_f)
              Examples.a_loop Examples.counting_rng) as [_ Hraise].
  exact (Hraise "f" "items" "arn:aws:lambda:f" eq_refl eq_refl eq_refl).
Defined.

(** ** Parallel fragments *)

Lemma dict_get_None_keys {V} (k : string) (d : list (string * V)) :
  dict_get k d = None <-> k ∉ map fst d.
Proof.
  induction d as [|[k' v] d IH]; simpl.
  - split; [intros _; apply not_elem_of_nil|done].
  - rewrite not_elem_of_cons. destruct (String.eqb k k') eqn:E.
    + apply String.eqb_eq in E. split; [done|]. by intros [? _].
    + apply String.eqb_neq in E. rewrite IH. tauto.
Qed.

Lemma dict_set_fresh {V} (k : string) (v : V) (d : list (string * V)) :
  k ∉ map fst d -> dict_set k v d = d ++ [(k, v)].
Proof.
  induction d as [|[k' v'] d IH]; simpl; [done|].
  rewrite not_elem_of_cons. intros [Hne Hd].
  apply String.eqb_neq in Hne. rewrite Hne. by rewrite IH.
Qed.

Lemma deserialize_all_keys_in_order (d : list (string * json))
    (acc sts : list (string * State)) :
  NoDup (map fst acc ++ map fst d) ->
  deserialize_all d acc = Ok sts ->
  map fst sts = map fst acc ++ map fst d.
Proof.
  revert acc. induction d as [|[n s] d IH]; intros acc Hnd; simpl.
  - intros [= <-]. by rewrite app_nil_r.
  - destruct (State_deserialize n s) as [st|]; simpl; [|done].
    intros Hd. simpl in Hnd.
    assert (n ∉ map fst acc) as Hfresh.
    { apply NoDup_app in Hnd as (_ & Hdis & _). intros Hin.
      apply (Hdis _ Hin). apply elem_of_cons. by left. }
    rewrite (dict_set_fresh _ _ _ Hfresh) in Hd.
    apply IH in Hd.
    + rewrite Hd, map_app. simpl. by rewrite <- app_assoc.
    + rewrite map_app. simpl. by rewrite <- app_assoc.
Qed.

Lemma dict_set_names (n : string) (st : State)
    (acc : list (string * State)) :
  State_name st = n ->
  Forall (fun ns => State_name (snd ns) = fst ns) acc ->
  Forall (fun ns => State_name (snd ns) = fst ns) (dict_set n st acc).
Proof.
  intros Hn. induction acc as [|[k v] acc IH]; simpl; intros Hacc.
  - by constructor.
  - apply Forall_cons in Hacc as [Hk Hacc].
    destruct (String.eqb n k) eqn:E.
    + apply String.eqb_eq in E. subst k. by constructor.
    + constructor; [done|by apply IH].
Qed.

Lemma deserialize_all_names (d : list (string * json))
    (acc sts : list (string * State)) :
  Forall (fun ns => State_name (snd ns) = fst ns) acc ->
  deserialize_all d acc = Ok sts ->
  Forall (fun ns => State_name (snd ns) = fst ns) sts.
Proof.
  revert acc. induction d as [|[n s] d IH]; intros acc Hacc; simpl.
  - by intros [= <-].
  - destruct (State_deserialize n s) as [st|] eqn:Hst; simpl; [|done].
    apply IH, dict_set_names; [|done].
    by apply State_deserialize_name in Hst.
Qed.

Lemma encode_state_named (self : SFNGenerator.t) (s : State) (frag : json)
    (r r' : rng) :
  Generator.encode_state self s r = Ok (frag, r') ->
  named (State_name s) frag.
Proof.
  destruct s as [t|sw|m|l|p]; simpl; unfold lift, named.
  - unfold SFNGenerator.encode_task.
    destruct (lookup_key _ _); simpl; [|done]. intros [= <- _].
    eexists. split; [done|]. by rewrite dict_get_next_or_end.
  - unfold SFNGenerator.encode_switch.
    destruct (rmap _ _); simpl; [|done]. intros [= <- _]. by eexists.
  - destruct (encode_map_raises self m) as [e He]. by rewrite He.
  - done.
  - done.
Qed.

Lemma mmap_cons_inv {A B} (f : A -> M B) (x : A) (xs : list A)
    (ys : list B) (r r' : rng) :
  mmap f (x :: xs) r = Ok (ys, r') ->
  exists y r1 ys',
    f x r = Ok (y, r1) /\ mmap f xs r1 = Ok (ys', r') /\ ys = y :: ys'.
Proof.
  simpl. unfold mbind.
  destruct (f x r) as [[y r1]|]; [|done].
  destruct (mmap f xs r1) as [[ys' r2]|] eqn:Hxs; [|done].
  unfold mret. intros [= <- <-]. by exists y, r1, ys'.
Qed.

Lemma mmap_encode_state_named (self : SFNGenerator.t) (ss : list State)
    (frags : list json) (r r' : rng) :
  mmap (Generator.encode_state self) ss r = Ok (frags, r') ->
  Forall2 (fun s frag => named (State_name s) frag) ss frags.
Proof.
  revert frags r. induction ss as [|s ss IH]; intros frags r.
  - simpl. unfold mret. intros [= <- _]. constructor.
  - intros (frag & r1 & frags' & Hs & Hss & ->)%mmap_cons_inv.
    constructor; [by eapply encode_state_named|by eapply IH].
Qed.

Lemma set_result_path_named (n : string) (frag : json) :
  named n frag ->
  SFNGenerator.set_result_path frag = Ok (with_result_path frag)
  /\ named n (with_result_path frag)
  /\ getitem (with_result_path frag) "ResultPath" = Ok (JStr ("$." +:+ n)).
Proof.
  intros (fd & -> & Hn). unfold SFNGenerator.set_result_path, with_result_path.
  simpl. rewrite Hn. simpl. split; [done|]. split.
  - eexists. split; [done|]. by rewrite dict_get_set_ne.
  - by rewrite dict_get_set_eq.
Qed.

Lemma rmap_set_result_path (ss : list State) (frags : list json) :
  Forall2 (fun s frag => named (State_name s) frag) ss frags ->
  rmap SFNGenerator.set_result_path frags = Ok (map with_result_path frags).
Proof.
  induction 1 as [|s frag ss frags Hn _ IH]; simpl; [done|].
  destruct (set_result_path_named _ _ Hn) as (-> & _). simpl.
  by rewrite IH.
Qed.

Lemma func_name_named (n : string) (frag : json) (frags : list json)
    (i : nat) :
  frags !! i = Some frag -> named n frag ->
  SFNGenerator.func_name frags i = Ok n
  /\ SFNGenerator.nth_func frags i = Ok frag.
Proof.
  intros Hi (fd & -> & Hn). unfold SFNGenerator.func_name, SFNGenerator.nth_func.
  rewrite Hi. simpl. by rewrite Hn.
Qed.

Lemma encode_parallel_unfold (self : SFNGenerator.t) (name : string)
    (next : json) (d : list (string * json)) (sts : list (string * State))
    (frags : list json) (r r' : rng) :
  deserialize_all d [] = Ok sts ->
  mmap (Generator.encode_state self) (map snd sts) r = Ok (frags, r') ->
  SFNGenerator.encode_parallel self (Parallel.Build name (JDict d) next) r =
  match (start0 <- SFNGenerator.func_name (map with_result_path frags) 0;;
         f0 <- SFNGenerator.nth_func (map with_result_path frags) 0;;
         start1 <- SFNGenerator.func_name (map with_result_path frags) 1;;
         f1 <- SFNGenerator.nth_func (map with_result_path frags) 1;;
         Ok (JDict
               (SFNGenerator.next_or_end next
                  [("Name", JStr name);
                   ("Type", JStr "Parallel");
                   ("Branches",
                    JList [JDict [("StartAt", JStr start0);
                                  ("States", JList [f0])];
                           JDict [("StartAt", JStr start1);
                                  ("States", JList [f1])]]);
                   ("ResultSelector",
                    JDict [("payload",
                            JDict (dict_of
                                     [(start0 +:+ ".$",
                                       JStr ("$[0]." +:+ start0));
                                      (start1 +:+ ".$",
                                       JStr ("$[1]." +:+ start1))]));
                           ("request_id.$", JStr "$[0].request_id")])])))
  with
  | Ok frag => Ok (frag, r')
  | Raise e => Raise e
  end.
Proof.
  intros Hdes Hmmap.
  unfold SFNGenerator.encode_parallel, mbind, lift.
  cbn [Parallel.funcs items]. rewrite Hdes, Hmmap.
  rewrite (rmap_set_result_path _ _ (mmap_encode_state_named _ _ _ _ _ Hmmap)).
  unfold mret, Parallel.next, Parallel.name.
  destruct (SFNGenerator.func_name _ 0); [|done]. simpl.
  destruct (SFNGenerator.nth_func _ 0); [|done]. simpl.
  destruct (SFNGenerator.func_name _ 1); [|done]. simpl.
  by destruct (SFNGenerator.nth_func _ 1).
Qed.

(** C7, as amended: on a parallel state whose branches deserialize and
    encode, [encode_parallel] builds its fragment from the first two
    branches A and B: one single-state branch each, the result selector
    merging the outputs under the keys A and B and taking the request
    identifier from branch A only.  Branches beyond the second are left out
    of the fragment without any failure; with fewer than two branches the
    encoding fails with an [IndexError]. *)
Theorem encode_parallel_first_two_branches :
  forall (self : SFNGenerator.t) (name : string) (next : json)
         (d : list (string * json)) (sts : list (string * State))
         (frags : list json) (r r' : rng),
    NoDup (map fst d) ->
    deserialize_all d [] = Ok sts ->
    mmap (Generator.encode_state self) (map snd sts) r = Ok (frags, r') ->
    match d with
    | (A, _) :: (B, _) :: _ =>
        exists frag fA fB,
          SFNGenerator.encode_parallel self
            (Parallel.Build name (JDict d) next) r = Ok (frag, r')
          /\ getitem frag "Type" = Ok (JStr "Parallel")
          /\ getitem frag "Branches"
             = Ok (JList [JDict [("StartAt", JStr A); ("States", JList [fA])];
                          JDict [("StartAt", JStr B); ("States", JList [fB])]])
          /\ named A fA /\ named B fB
          /\ getitem fA "ResultPath" = Ok (JStr ("$." +:+ A))
          /\ getitem fB "ResultPath" = Ok (JStr ("$." +:+ B))
          /\ getitem frag "ResultSelector"
             = Ok (JDict [("payload",
                           JDict [(A +:+ ".$", JStr ("$[0]." +:+ A));
                                  (B +:+ ".$", JStr ("$[1]." +:+ B))]);
                          ("request_id.$", JStr "$[0].request_id")])
    | _ =>
        SFNGenerator.encode_parallel self
          (Parallel.Build name (JDict d) next) r = Raise IndexError
    end.
Proof.
  intros self name next d sts frags r r' Hnd Hdes Hmmap.
  rewrite (encode_parallel_unfold _ _ _ _ _ _ _ _ Hdes Hmmap).
  pose proof (deserialize_all_keys_in_order d [] sts Hnd Hdes) as Hkeys.
  pose proof (deserialize_all_names d [] sts (List.Forall_nil _) Hdes) as Hnames.
  pose proof (mmap_encode_state_named _ _ _ _ _ Hmmap) as Hnamed.
  simpl in Hkeys.
  destruct d as [|[A da] [|[B db] rest]]; simpl in Hkeys.
  - destruct sts; [|done]. by inversion Hnamed.
  - destruct sts as [|[kA sA] [|? ?]]; try done.
    injection Hkeys as ->.
    inversion Hnamed as [|? fA ? ? HA Hrest]; subst. inversion Hrest; subst.
    apply Forall_cons in Hnames as [HnA _]. simpl in HnA, HA.
    rewrite HnA in HA.
    destruct (set_result_path_named _ _ HA) as (_ & HA' & _).
    cbn [map].
    destruct (func_name_named A (with_result_path fA) [with_result_path fA] 0
                eq_refl HA') as [-> ->].
    done.
  - destruct sts as [|[kA sA] [|[kB sB] srest]]; try done.
    injection Hkeys as -> -> _.
    inversion Hnamed as [|? fA ? ? HA Hrest]; subst.
    inversion Hrest as [|? fB ? frest HB _]; subst.
    apply Forall_cons in Hnames as [HnA Hnames].
    apply Forall_cons in Hnames as [HnB _].
    simpl in HnA, HnB, HA, HB. rewrite HnA in HA. rewrite HnB in HB.
    destruct (set_result_path_named _ _ HA) as (_ & HA' & HpA).
    destruct (set_result_path_named _ _ HB) as (_ & HB' & HpB).
    cbn [map].
    destruct (func_name_named A (with_result_path fA)
                (with_result_path fA :: with_result_path fB
                   :: map with_result_path frest) 0 eq_refl HA') as [-> ->].
    destruct (func_name_named B (with_result_path fB)
                (with_result_path fA :: with_result_path fB
                   :: map with_result_path frest) 1 eq_refl HB') as [-> ->].
    cbn [rbind].
    eexists _, (with_result_path fA), (with_result_path fB).
    split; [done|].
    unfold getitem at 1 2 5. rewrite !dict_get_next_or_end by done.
    do 6 (split; [done|]).
    cbn [dict_get String.eqb Ascii.eqb Bool.eqb]. unfold dict_of. simpl.
    assert (String.eqb (B +:+ ".$") (A +:+ ".$") = false) as ->; [|done].
    apply String.eqb_neq. intros Heq%append_inj_r. subst B.
    apply NoDup_cons in Hnd as [Hnotin _]. apply Hnotin, elem_of_cons.
    by left.
Qed.

Lemma encode_parallel_first_two_branches_witness :
  exists frag,
    value (SFNGenerator.encode_parallel (Examples.sfn Examples.arns_fgh)
             (Examples.a_parallel ["f1"; "g1"]) Examples.counting_rng)
    = Ok frag
    /\ getitem frag "ResultSelector"
       = Ok (JDict [("payload",
                     JDict [("f1.$", JStr "$[0].f1");
                            ("g1.$", JStr "$[1].g1")]);
                    ("request_id.$", JStr "$[0].request_id")]).
Proof.
  edestruct (encode_parallel_first_two_branches
               (Examples.sfn Examples.arns_fgh) "p" JNull
               [("f1", Examples.task_doc "f" []);
                ("g1", Examples.task_doc "g" [])])
    as (frag & fA & fB & Henc & _ & _ & _ & _ & _ & _ & Hsel).
  - apply (bool_decide_unpack _). vm_compute. reflexivity.
  - vm_compute. reflexivity.
  - vm_compute. reflexivity.
  - exists frag. split; [|exact Hsel].
    change (Examples.a_parallel ["f1"; "g1"])
      with (Parallel.Build "p"
              (JDict [("f1", Examples.task_doc "f" []);
                      ("g1", Examples.task_doc "g" [])]) JNull).
    by rewrite Henc.
Defined.

(** C7 fails as stated: a parallel state with three branches is encoded
    without any failure, into a fragment with the first two branches. *)
Lemma encode_parallel_three_branches_succeeds :
  exists frag,
    value (SFNGenerator.encode_parallel (Examples.sfn Examples.arns_fgh)
             (Examples.a_parallel ["f1"; "g1"; "h1"]) Examples.counting_rng)
    = Ok frag
    /\ raises (SFNGenerator.encode_parallel (Examples.sfn Examples.arns_fgh)
                 (Examples.a_parallel ["f1"; "g1"; "h1"])
                 Examples.counting_rng) = false
    /\ getitem frag "ResultSelector"
       = Ok (JDict [("payload",
                     JDict [("f1.$", JStr "$[0].f1");
                            ("g1.$", JStr "$[1].g1")]);
                    ("request_id.$", JStr "$[0].request_id")]).
Proof. eexists. by vm_compute. Qed.

(** ** Polling the result queue *)

Lemma empty_polls_S `{Platform} (q : AzureQueue) (n : nat) :
  empty_polls q (S n) = [ReceiveMessage q; Sleep 5] ++ empty_polls q n.
Proof. reflexivity. Qed.

(** The queue trigger's loop returns at the first non-empty answer, having
    alternated receive attempts and sleeps of five seconds. *)
Lemma queue_poll_returns `{World} (q : AzureQueue) (n extra : nat)
    (h : trace) :
  (forall k, (k < n)%nat -> receive_message q (h ++ empty_polls q k) = "") ->
  receive_message q (h ++ empty_polls q n) <> "" ->
  Azure.QueueTrigger.poll (S n + extra) (Some q) h
  = Some (Ok (receive_message q (h ++ empty_polls q n)),
          h ++ empty_polls q n ++ [ReceiveMessage q]).
Proof.
  revert h. induction n as [|n IH]; intros h Hempty Hmsg.
  - simpl in *. rewrite app_nil_r in Hmsg |- *.
    apply String.eqb_neq in Hmsg. by rewrite Hmsg.
  - cbn [Nat.add Azure.QueueTrigger.poll assert_some].
    pose proof (Hempty 0%nat ltac:(lia)) as Hfirst.
    simpl in Hfirst. rewrite app_nil_r in Hfirst. rewrite Hfirst.
    simpl String.eqb.
    rewrite empty_polls_S in Hmsg |- *.
    replace (h ++ [ReceiveMessage q; Sleep 5] ++ empty_polls q n)
      with (((h ++ [ReceiveMessage q]) ++ [Sleep 5]) ++ empty_polls q n)
      in Hmsg |- * by by rewrite <- !app_assoc.
    replace (h ++ ([ReceiveMessage q; Sleep 5] ++ empty_polls q n)
               ++ [ReceiveMessage q])
      with (((h ++ [ReceiveMessage q]) ++ [Sleep 5])
              ++ empty_polls q n ++ [ReceiveMessage q])
      by by rewrite <- !app_assoc.
    apply IH; [|done].
    intros k Hk. specialize (Hempty (S k) ltac:(lia)).
    rewrite empty_polls_S in Hempty. by rewrite <- !app_assoc.
Qed.

Lemma storage_poll_shifted `{World} (fuel : nat) (rq : option AzureQueue)
    (h : trace) :
  Azure.StorageTrigger.poll fuel rq h
  = Azure.QueueTrigger.poll fuel rq (h ++ [Sleep 5]).
Proof.
  revert h. induction fuel as [|fuel IH]; intros h; simpl; [done|].
  destruct rq as [q|]; simpl; [|done].
  destruct (String.eqb _ ""); [apply IH|done].
Qed.

(** C10, as amended: the storage trigger polls the result queue with the
    same interval of five seconds as the queue trigger, but not in the same
    order: its loop sleeps before every receive attempt, the first one
    included, so it behaves as the queue trigger's loop started after one
    sleep of five seconds.  Both loops return at the first non-empty answer,
    after alternating receive attempts and sleeps. *)
Theorem storage_poll_is_queue_poll_after_a_sleep :
  forall `{World} (q : AzureQueue) (n extra : nat) (h : trace),
    (forall k, (k < n)%nat ->
               receive_message q ((h ++ [Sleep 5]) ++ empty_polls q k) = "") ->
    receive_message q ((h ++ [Sleep 5]) ++ empty_polls q n) <> "" ->
    (forall fuel rq h',
        Azure.StorageTrigger.poll fuel rq h'
        = Azure.QueueTrigger.poll fuel rq (h' ++ [Sleep 5]))
    /\ Azure.QueueTrigger.poll (S n + extra) (Some q) (h ++ [Sleep 5])
       = Some (Ok (receive_message q ((h ++ [Sleep 5]) ++ empty_polls q n)),
               (h ++ [Sleep 5]) ++ empty_polls q n ++ [ReceiveMessage q])
    /\ Azure.StorageTrigger.poll (S n + extra) (Some q) h
       = Some (Ok (receive_message q ((h ++ [Sleep 5]) ++ empty_polls q n)),
               h ++ [Sleep 5] ++ empty_polls q n ++ [ReceiveMessage q]).
Proof.
  intros P W q n extra h Hempty Hmsg. split; [|split].
  - intros. apply storage_poll_shifted.
  - by apply queue_poll_returns.
  - rewrite storage_poll_shifted, (queue_poll_returns q n extra _ Hempty Hmsg).
    by rewrite <- !app_assoc.
Qed.

Lemma storage_poll_is_queue_poll_after_a_sleep_witness :
  @Azure.StorageTrigger.poll _ (Reference.world 1) 3
    (Some Examples.result_queue_f) []
  = Some (Ok "{}",
          [Sleep 5; ReceiveMessage Examples.result_queue_f;
           Sleep 5; ReceiveMessage Examples.result_queue_f]).
Proof.
  destruct (@storage_poll_is_queue_poll_after_a_sleep _ (Reference.world 1)
              Examples.result_queue_f 1 1 [])
    as (_ & _ & Hstorage).
  - intros k Hk. assert (k = 0)%nat as -> by lia. reflexivity.
  - vm_compute. discriminate.
  - exact Hstorage.
Defined.

(** C10 fails as stated: with the answer already in the result queue, the
    queue trigger receives at once while the storage trigger sleeps five
    seconds first; the two invocations end five seconds apart. *)
Lemma storage_poll_sleeps_first :
  @Azure.QueueTrigger.poll _ (Reference.world 0) 1
    (Some Examples.result_queue_f) []
  = Some (Ok "{}", [ReceiveMessage Examples.result_queue_f])
  /\ @Azure.StorageTrigger.poll _ (Reference.world 0) 1
       (Some Examples.result_queue_f) []
     = Some (Ok "{}", [Sleep 5; ReceiveMessage Examples.result_queue_f])
  /\ @Azure.StorageTrigger.poll _ (Reference.world 0) 1
       (Some Examples.result_queue_f) []
     <> @Azure.QueueTrigger.poll _ (Reference.world 0) 1
          (Some Examples.result_queue_f) []
  /\ (exists res_q res_s hq hs,
         @Azure.QueueTrigger.sync_invoke _ (Reference.world 0)
           Examples.queue_trigger Examples.a_payload 1 []
         = Some (Ok res_q, hq)
         /\ @Azure.StorageTrigger.sync_invoke _ (Reference.world 0)
              Examples.storage_trigger Examples.a_payload 1 []
            = Some (Ok res_s, hs)
         /\ Reference.finish res_q = 0%Z
         /\ Reference.finish res_s = 5%Z).
Proof.
  split; [by vm_compute|]. split; [by vm_compute|]. split.
  - vm_compute. intros [=].
  - do 4 eexists. by vm_compute.
Qed.

(** ** Asynchronous invocation *)

(** C6, as amended: the HTTP triggers of both platforms, the queue trigger
    and the storage trigger hand the call [sync_invoke(payload)] to a worker
    and return the future at once, so that the result of the future is what
    [sync_invoke(payload)] produces.  The function library trigger does not:
    it performs one invocation of type ["Event"] itself and returns the
    answer of the platform, raising [RuntimeError] unless the status code is
    202.  The workflow library trigger raises [NotImplementedError]. *)
Theorem async_invoke_by_variant :
  forall `{World} (payload : json) (h : trace),
    (forall tr, Trigger.offloads_sync (Trigger.AwsHTTP tr) payload h)
    /\ (forall tr, Trigger.offloads_sync (Trigger.AzureHTTP tr) payload h)
    /\ (forall tr, Trigger.offloads_sync (Trigger.AzureQueue tr) payload h)
    /\ (forall tr, Trigger.offloads_sync (Trigger.AzureStorage tr) payload h)
    /\ (forall tr,
           Trigger.async_invoke (Trigger.AwsWorkflowLibrary tr) payload h
           = (Raise NotImplementedError, h))
    /\ (forall name,
           Trigger.async_invoke
             (Trigger.AwsFunctionLibrary (AWS.LibraryTrigger.Build _ name None))
             payload h
           = (Raise AssertionError, h))
    /\ (forall name client,
           let args := [("FunctionName", name);
                        ("InvocationType", JStr "Event");
                        ("Payload", JStr (json_dumps payload));
                        ("LogType", JStr "Tail")] in
           Trigger.async_invoke
             (Trigger.AwsFunctionLibrary
                (AWS.LibraryTrigger.Build _ name (Some client)))
             payload h
           = (ret <- lambda_invoke args h;;
              status <- getitem ret "StatusCode";;
              if eq_int status 202 then Ok (HResponse ret)
              else Raise RuntimeError,
              h ++ [LambdaInvoke args]))
    /\ (forall tr fut,
           fst (Trigger.async_invoke (Trigger.AwsFunctionLibrary tr) payload h)
           <> Ok (HFuture fut)).
Proof.
  intros P W payload h. repeat split.
  - intros tr. by eexists.
  - intros tr. by eexists.
  - intros tr. by eexists.
  - intros tr. by eexists.
  - intros name client. simpl.
    unfold AWS.FunctionLibraryTrigger.async_invoke. simpl. f_equal.
    destruct (lambda_invoke _ h) as [ret|]; simpl; [|done].
    destruct (getitem ret "StatusCode") as [status|]; simpl; [|done].
    by destruct (eq_int status 202).
  - intros [name [client|]] fut; simpl;
      unfold AWS.FunctionLibraryTrigger.async_invoke; simpl; [|done].
    destruct (lambda_invoke _ h) as [ret|]; simpl; [|done].
    destruct (getitem ret "StatusCode") as [status|]; simpl; [|done].
    by destruct (eq_int status 202).
Qed.

(** C6 fails as stated: the workflow library trigger raises instead of
    returning a handle, and the function library trigger returns the answer
    of an ["Event"] invocation that has already happened, no future. *)
Lemma library_triggers_do_not_offload :
  @Trigger.async_invoke _ (Reference.world 0)
    (Trigger.AwsWorkflowLibrary Examples.library_trigger)
    Examples.a_payload []
  = (Raise NotImplementedError, [])
  /\ ~ @Trigger.offloads_sync _ (Reference.world 0)
         (Trigger.AwsWorkflowLibrary Examples.library_trigger)
         Examples.a_payload []
  /\ ~ @Trigger.offloads_sync _ (Reference.world 0)
         (Trigger.AwsFunctionLibrary Examples.library_trigger)
         Examples.a_payload [].
Proof.
  split; [done|]. split.
  - intros (fut & Hasync & _). by vm_compute in Hasync.
  - intros (fut & Hasync & _). by vm_compute in Hasync.
Qed.

(** ** Persisted trigger records *)

(** C5, as amended: for every trigger whose [serialize()] returns a record,
    [deserialize] of that record provisions nothing and rebuilds a trigger
    with every field the record carries (name, URL, API id, storage
    account, region, queues, container name), and the rebuilt trigger
    serializes to the same record.  The handles the record does not carry,
    the deployment client of a library trigger and the data storage account
    of an Azure HTTP trigger, come back unset; the AWS HTTP trigger, the
    queue trigger and the storage trigger come back identical.  The queue
    handles are assumed to round-trip through [AzureQueue]'s own
    [serialize] and [deserialize]. *)
Theorem deserialize_serialize :
  forall `{Platform},
    (forall q, AzureQueue_deserialize (AzureQueue_serialize q) = Ok q) ->
    forall (tr : Trigger.t) (record : json) (h : trace),
      Trigger.serialize tr = Ok record ->
      Trigger.deserialize (Trigger.class_of tr) record h
      = (Ok (without_attached_handles tr), h)
      /\ Trigger.serialize (without_attached_handles tr) = Ok record
      /\ match tr with
         | Trigger.AwsHTTP _ | Trigger.AzureQueue _ | Trigger.AzureStorage _ =>
             Trigger.round_trips tr h
         | _ => True
         end.
Proof.
  intros P Hq tr record h Hser.
  assert (Trigger.deserialize (Trigger.class_of tr) record h
          = (Ok (without_attached_handles tr), h)) as Hdes.
  { destruct tr as [t|t|t|t|t|t]; simpl in Hser |- *.
    - injection Hser as <-. by destruct t.
    - injection Hser as <-. by destruct t.
    - injection Hser as <-. by destruct t.
    - injection Hser as <-. by destruct t.
    - destruct t as [n sa rg [q|] [rq|]];
        unfold Azure.QueueTrigger.serialize, Azure.QueueTrigger.storage_account,
          Azure.QueueTrigger.region, Azure.QueueTrigger.queue,
          Azure.QueueTrigger.result_queue, assert_truthy in Hser;
        simpl in Hser;
        destruct (truthy sa) eqn:Hsa; simpl in Hser; try done;
        destruct (truthy rg) eqn:Hrg; simpl in Hser; try done.
      injection Hser as <-.
      unfold Trigger.effectful_ctor, Azure.QueueTrigger.deserialize. simpl.
      by rewrite !Hq.
    - destruct t as [n sa rg [rq|] c];
        unfold Azure.StorageTrigger.serialize,
          Azure.StorageTrigger.storage_account, Azure.StorageTrigger.region,
          Azure.StorageTrigger.result_queue,
          Azure.StorageTrigger.container_name, assert_truthy in Hser;
        simpl in Hser;
        destruct (truthy sa) eqn:Hsa; simpl in Hser; try done;
        destruct (truthy rg) eqn:Hrg; simpl in Hser; try done;
        destruct (truthy c) eqn:Hc; simpl in Hser; try done.
      injection Hser as <-.
      unfold Trigger.effectful_ctor, Azure.StorageTrigger.deserialize.
      cbn -[truthy]. rewrite !Hq. cbn -[truthy].
      unfold Azure.StorageTrigger.init. by rewrite Hc. }
  split; [done|]. split.
  - destruct tr as [t|t|t|t|t|t]; simpl in *; try done; by destruct t.
  - destruct tr; try done; exists record; by split.
Qed.

Lemma deserialize_serialize_witness :
  Trigger.round_trips (Trigger.AzureQueue Examples.queue_trigger) []
  /\ Trigger.round_trips (Trigger.AzureStorage Examples.storage_trigger) [].
Proof.
  assert (forall q : Reference.queue,
             Reference.queue_deserialize (Reference.queue_serialize q)
             = Ok q) as Hq.
  { intros [n [] sa rg]; reflexivity. }
  split.
  - destruct (@deserialize_serialize Reference.platform Hq
                (Trigger.AzureQueue Examples.queue_trigger) _ [] eq_refl)
      as (_ & _ & Hround).
    exact Hround.
  - destruct (@deserialize_serialize Reference.platform Hq
                (Trigger.AzureStorage Examples.storage_trigger) _ [] eq_refl)
      as (_ & _ & Hround).
    exact Hround.
Defined.

(** C5 fails as stated: an Azure HTTP trigger bound to a data storage
    account comes back from [deserialize(serialize(t))] without the
    account, and a library trigger without its deployment client. *)
Lemma deserialize_drops_attached_handles :
  ~ Trigger.round_trips (Trigger.AzureHTTP Examples.http_trigger) []
  /\ Trigger.deserialize Trigger.AzureHTTPTrigger
       (JDict [("type", JStr "HTTP");
               ("url", JStr "https://f.azurewebsites.net/api/f")]) []
     = (Ok (Trigger.AzureHTTP
              (Azure.HTTPTrigger.Build _
                 (JStr "https://f.azurewebsites.net/api/f") None)), [])
  /\ ~ Trigger.round_trips
         (Trigger.AwsFunctionLibrary Examples.library_trigger) [].
Proof.
  split; [|split].
  - intros (record & Hser & Hdes). injection Hser as <-.
    by vm_compute in Hdes.
  - reflexivity.
  - intros (record & Hser & Hdes). injection Hser as <-.
    by vm_compute in Hdes.
Qed.

(** * Further properties of the embedded code *)

(** ** What a successful [parse] leaves in the generator *)

Lemma dict_get_Some_elem {V} (k : string) (v : V) (d : list (string * V)) :
  dict_get k d = Some v -> (k, v) ∈ d.
Proof.
  induction d as [|[k' v'] d IH]; simpl; [done|].
  destruct (String.eqb k k') eqn:E.
  - apply String.eqb_eq in E. intros [= ->]. subst. apply elem_of_cons.
    by left.
  - intros Hd. apply elem_of_cons. right. by apply IH.
Qed.

Lemma dict_set_Forall {V} (P : string * V -> Prop) (k : string) (v : V)
    (d : list (string * V)) :
  P (k, v) -> Forall P d -> Forall P (dict_set k v d).
Proof.
  intros Hkv. induction d as [|[k' v'] d IH]; simpl; intros Hd.
  - by constructor.
  - apply Forall_cons in Hd as [Hk Hd].
    destruct (String.eqb k k') eqn:E.
    + apply String.eqb_eq in E. subst k'. by constructor.
    + constructor; [done|by apply IH].
Qed.

Lemma State_deserialize_variant (n : string) (s : json) (st : State) :
  State_deserialize n s = Ok st -> parsed_variant st = true.
Proof.
  unfold State_deserialize.
  destruct (getitem s "type") as [tag|]; simpl; [|done].
  destruct (lookup_key _STATE_TYPES tag) as [[]|]; simpl; [| | |done].
  - destruct (Task.deserialize n s); simpl; [|done]. by intros [= <-].
  - destruct (Switch.deserialize n s); simpl; [|done]. by intros [= <-].
  - destruct (Map.deserialize n s); simpl; [|done]. by intros [= <-].
Qed.

Lemma deserialize_all_Forall (P : string * State -> Prop)
    (d : list (string * json)) (acc sts : list (string * State)) :
  (forall n s st, State_deserialize n s = Ok st -> P (n, st)) ->
  Forall P acc ->
  deserialize_all d acc = Ok sts ->
  Forall P sts.
Proof.
  intros HP. revert acc. induction d as [|[n s] d IH]; intros acc Hacc; simpl.
  - by intros [= <-].
  - destruct (State_deserialize n s) as [st|] eqn:Hst; simpl; [|done].
    apply IH, dict_set_Forall; [by eapply HP|done].
Qed.

(** X1: after a successful [parse], [root] is the state stored under the
    name the [root] field gives, every state carries the name it is stored
    under and is a task, a switch or a map, and the names are those of the
    definition's [states], in the same order. *)
Theorem parse_ok_graph :
  forall (definition : json) (g : Graph),
    parse definition = Ok g ->
    exists (d : list (string * json)) (k : string),
      getitem definition "states" = Ok (JDict d)
      /\ getitem definition "root" = Ok (JStr k)
      /\ dict_get k (states g) = Some (root g)
      /\ State_name (root g) = k
      /\ Forall (fun ns => State_name (snd ns) = fst ns
                           /\ parsed_variant (snd ns) = true) (states g)
      /\ (forall k', dict_get k' (states g) = None <-> dict_get k' d = None)
      /\ (NoDup (map fst d) -> map fst (states g) = map fst d).
Proof.
  intros definition g. unfold parse.
  destruct (getitem definition "states") as [sts|] eqn:Hsts; simpl; [|done].
  destruct sts as [| | | | | |d]; simpl; try done.
  destruct (deserialize_all d []) as [states|] eqn:Hdes; simpl; [|done].
  destruct (getitem definition "root") as [r|] eqn:Hr; simpl; [|done].
  destruct r as [| | | |k| |]; simpl; try done.
  destruct (dict_get k states) as [root|] eqn:Hroot; simpl; [|done].
  intros [= <-]. simpl. exists d, k.
  assert (Forall (fun ns => State_name (snd ns) = fst ns
                            /\ parsed_variant (snd ns) = true) states)
    as Hall.
  { apply (deserialize_all_Forall _ d [] states); [|constructor|done].
    intros n s st Hst. split.
    - by apply State_deserialize_name in Hst.
    - by apply State_deserialize_variant in Hst. }
  do 3 (split; [done|]). split; [|split; [done|split]].
  - apply dict_get_Some_elem in Hroot.
    rewrite Forall_forall in Hall. by destruct (Hall _ Hroot).
  - intros k'. rewrite (deserialize_all_keys d [] states k' Hdes). simpl.
    tauto.
  - intros Hnd. by apply (deserialize_all_keys_in_order d [] states).
Qed.

Lemma parse_ok_graph_witness :
  exists k,
    dict_get k (states (Examples.graph_of Examples.two_tasks))
    = Some (root (Examples.graph_of Examples.two_tasks))
    /\ map fst (states (Examples.graph_of Examples.two_tasks)) = ["a"; "b"].
Proof.
  destruct (parse_ok_graph Examples.two_tasks
              (Examples.graph_of Examples.two_tasks) eq_refl)
    as (d & k & Hd & _ & Hroot & _ & _ & _ & Hkeys).
  exists k. split; [exact Hroot|].
  injection Hd as <-. apply Hkeys.
  apply (bool_decide_unpack _). vm_compute. reflexivity.
Defined.

(** ** State documents *)

(** X2: a case document becomes a case exactly when its keys are [var],
    [op], [val] and [next], in any order; a missing key, an unexpected key
    or a document that is no dictionary is a [TypeError]. *)
Theorem Case_deserialize_keys :
  forall (payload : json),
    match Case.deserialize payload with
    | Ok c =>
        exists d, payload = JDict d
                  /\ (forall k, k ∈ map fst d <-> k ∈ Case.fields)
                  /\ dict_get "var" d = Some (Case.var c)
                  /\ dict_get "op" d = Some (Case.op c)
                  /\ dict_get "val" d = Some (Case.val c)
                  /\ dict_get "next" d = Some (Case.next c)
    | Raise e =>
        e = TypeError
        /\ (forall d, payload = JDict d ->
                      ~ (forall k, k ∈ map fst d <-> k ∈ Case.fields))
    end.
Proof.
  intros payload. unfold Case.deserialize.
  destruct payload as [| | | | | |d]; try (split; [done|by intros]).
  destruct (forallb _ d) eqn:Hall.
  - rewrite forallb_forall in Hall.
    assert (forall k, k ∈ map fst d -> k ∈ Case.fields) as Hsub.
    { intros k Hk. apply list_elem_of_fmap in Hk as ([k' v] & -> & Hin).
      apply list_elem_of_In, Hall in Hin. by apply bool_decide_eq_true in Hin. }
    destruct (dict_get "var" d) as [v|] eqn:Hv;
      [destruct (dict_get "op" d) as [o|] eqn:Ho;
       [destruct (dict_get "val" d) as [x|] eqn:Hx;
        [destruct (dict_get "next" d) as [n|] eqn:Hn|]|]|].
    + exists d. split; [done|]. split; [|done].
      intros k. split; [apply Hsub|].
      unfold Case.fields. rewrite !elem_of_cons, elem_of_nil.
      intros [->|[->|[->|[->|[]]]]];
        apply dec_stable; rewrite <- dict_get_None_keys; congruence.
    + split; [done|]. intros ? [= <-] Hkeys.
      apply dict_get_None_keys in Hn. apply Hn, Hkeys.
      by apply (bool_decide_unpack _).
    + split; [done|]. intros ? [= <-] Hkeys.
      apply dict_get_None_keys in Hx. apply Hx, Hkeys.
      by apply (bool_decide_unpack _).
    + split; [done|]. intros ? [= <-] Hkeys.
      apply dict_get_None_keys in Ho. apply Ho, Hkeys.
      by apply (bool_decide_unpack _).
    + split; [done|]. intros ? [= <-] Hkeys.
      apply dict_get_None_keys in Hv. apply Hv, Hkeys.
      by apply (bool_decide_unpack _).
  - split; [done|]. intros ? [= <-] Hkeys.
    apply not_true_iff_false in Hall. apply Hall, forallb_forall.
    intros [k v] Hin. apply bool_decide_eq_true, Hkeys.
    apply list_elem_of_fmap. exists (k, v). split; [done|].
    by apply list_elem_of_In.
Qed.

(** ** Successors and terminal states *)





(** ** Choice fragments *)

Lemma _encode_case_ok (c : Case.t) (ch : json) :
  SFNGenerator._encode_case c = Ok ch ->
  getitem ch "Next" = Ok (Case.next c)
  /\ (exists v, Case.var c = JStr v
                /\ getitem ch "Variable" = Ok (JStr ("$.payload" +:+ v)))
  /\ (exists o cmp,
         Case.op c = JStr o /\ SFNGenerator.comp o = Some cmp
         /\ getitem ch ((if SFNGenerator.is_number (Case.val c)
                         then "Numeric" else "String") +:+ cmp)
            = Ok (Case.val c)).
Proof.
  unfold SFNGenerator._encode_case.
  destruct (Case.op c) as [| | | |o| |] eqn:Hop; simpl; try done.
  destruct (SFNGenerator.comp o) as [cmp|] eqn:Hcmp; simpl; [|done].
  destruct (Case.var c) as [| | | |v| |] eqn:Hvar; simpl; try done.
  intros [= <-]. unfold dict_of, getitem.
  destruct (SFNGenerator.is_number (Case.val c));
    cbn [fold_left fst snd dict_set]; cbv [String.append];
    cbn [String.eqb Ascii.eqb Bool.eqb dict_set dict_get];
    (split; [done|]); (split; [by exists v|]); exists o, cmp;
    by rewrite String.eqb_refl.
Qed.

(** X4: a switch is encoded into one choice per case, in the order of the
    cases: the i-th choice routes to the i-th case's [next], tests the
    variable under [$.payload], and compares with the case's literal under
    the key made of the kind of the literal ([Numeric] for numbers and
    booleans, [String] for everything else) and the name of the operator. *)
Theorem encode_switch_keeps_cases_in_order :
  forall (self : SFNGenerator.t) (s : Switch.t) (frag : json),
    SFNGenerator.encode_switch self s = Ok frag ->
    exists choices,
      getitem frag "Choices" = Ok (JList choices)
      /\ getitem frag "Type" = Ok (JStr "Choice")
      /\ length choices = length (Switch.cases s)
      /\ Forall2
           (fun c ch =>
              getitem ch "Next" = Ok (Case.next c)
              /\ (exists v, Case.var c = JStr v
                            /\ getitem ch "Variable"
                               = Ok (JStr ("$.payload" +:+ v)))
              /\ (exists o cmp,
                     Case.op c = JStr o /\ SFNGenerator.comp o = Some cmp
                     /\ getitem ch ((if SFNGenerator.is_number (Case.val c)
                                     then "Numeric" else "String") +:+ cmp)
                        = Ok (Case.val c)))
           (Switch.cases s) choices.
Proof.
  intros self s frag. unfold SFNGenerator.encode_switch.
  destruct (rmap _ (Switch.cases s)) as [choices|] eqn:Hr; simpl; [|done].
  intros [= <-]. exists choices. do 2 (split; [done|]).
  assert (Forall2 (fun c ch => SFNGenerator._encode_case c = Ok ch)
            (Switch.cases s) choices) as Hall.
  { revert choices Hr. induction (Switch.cases s) as [|c cs IH]; simpl.
    - intros ? [= <-]. constructor.
    - intros choices.
      destruct (SFNGenerator._encode_case c) as [ch|] eqn:Hc; simpl; [|done].
      destruct (rmap _ cs) as [chs|]; simpl; [|done].
      intros [= <-]. constructor; [done|by apply IH]. }
  split; [symmetry; by eapply Forall2_length|].
  eapply Forall2_impl; [exact Hall|]. intros c ch. apply _encode_case_ok.
Qed.

Lemma encode_switch_keeps_cases_in_order_witness :
  exists choices,
    getitem
      (JDict [("Name", JStr "s"); ("Type", JStr "Choice");
              ("Choices",
               JList [JDict [("Variable", JStr "$.payload.n");
                             ("NumericLessThan", JInt 5);
                             ("Next", JStr "A")];
                      JDict [("Variable", JStr "$.payload.n");
                             ("NumericEquals", JInt 5);
                             ("Next", JStr "B")]]);
              ("Default", JStr "C")]) "Choices" = Ok (JList choices)
    /\ length choices = 2%nat.
Proof.
  destruct (encode_switch_keeps_cases_in_order
              (Examples.sfn ∅)
              (Switch.Build "s"
                 [Case.Build (JStr ".n") (JStr "<") (JInt 5) (JStr "A");
                  Case.Build (JStr ".n") (JStr "==") (JInt 5) (JStr "B")]
                 (JStr "C")) _ eq_refl)
    as (choices & Hch & _ & Hlen & _).
  exists choices. split; [exact Hch|exact Hlen].
Defined.

Lemma rmap_fails_at {A B} (f : A -> res B) (pre post : list A) (x : A)
    (ys : list B) (e : exn) :
  rmap f pre = Ok ys -> f x = Raise e ->
  rmap f (pre ++ x :: post) = Raise e.
Proof.
  revert ys. induction pre as [|a pre IH]; intros ys; simpl.
  - intros _ ->. done.
  - destruct (f a); simpl; [|done].
    destruct (rmap f pre) as [ys'|] eqn:Hpre; simpl; [|done].
    intros _ Hx. by rewrite (IH ys' eq_refl Hx).
Qed.

(** X5: a case whose operator is not one of [<], [<=], [==], [>=], [>]
    makes [encode_switch] raise the [KeyError] of the operator table
    ([TypeError] for an unhashable operator) once the cases before it
    encode, and the fragment of the switch is not built. *)
Theorem encode_switch_unknown_operator :
  forall (self : SFNGenerator.t) (name : string) (default : json)
         (pre post : list Case.t) (c : Case.t) (choices : list json),
    rmap SFNGenerator._encode_case pre = Ok choices ->
    not_a_key SFNGenerator.comp (Case.op c) ->
    SFNGenerator.encode_switch self
      (Switch.Build name (pre ++ c :: post) default)
    = Raise (key_error (Case.op c)).
Proof.
  intros self name default pre post c choices Hpre Hop.
  unfold SFNGenerator.encode_switch. simpl.
  rewrite (rmap_fails_at _ pre post c choices (key_error (Case.op c)) Hpre);
    [done|].
  unfold SFNGenerator._encode_case.
  by rewrite (lookup_key_not_a_key _ _ Hop).
Qed.

Lemma encode_switch_unknown_operator_witness :
  SFNGenerator.encode_switch (Examples.sfn ∅)
    (Switch.Build "s"
       [Case.Build (JStr ".n") (JStr "<") (JInt 5) (JStr "A");
        Case.Build (JStr ".n") (JStr "!=") (JInt 5) (JStr "B")]
       (JStr "C"))
  = Raise (KeyError (JStr "!=")).
Proof.
  exact (encode_switch_unknown_operator (Examples.sfn ∅) "s" (JStr "C")
           [Case.Build (JStr ".n") (JStr "<") (JInt 5) (JStr "A")] []
           (Case.Build (JStr ".n") (JStr "!=") (JInt 5) (JStr "B"))
           _ eq_refl eq_refl).
Defined.

(** ** The fragments of the encoding loop *)

Lemma encode_state_frag (self : SFNGenerator.t) (s : State) (frag : json)
    (r r' : rng) :
  Generator.encode_state self s r = Ok (frag, r') ->
  task_or_switch s = true
  /\ (exists fd, frag = JDict fd
                 /\ dict_get "Name" fd = Some (JStr (State_name s))
                 /\ dict_get "Branches" fd = None)
  /\ r' = r.
Proof.
  destruct s as [t|sw|m|l|p]; simpl; unfold lift.
  - unfold SFNGenerator.encode_task.
    destruct (lookup_key _ _); simpl; [|done]. intros [= <- <-].
    split; [done|]. split; [|done].
    eexists. split; [done|]. by rewrite !dict_get_next_or_end.
  - unfold SFNGenerator.encode_switch.
    destruct (rmap _ _); simpl; [|done]. intros [= <- <-].
    split; [done|]. split; [by eexists|done].
  - destruct (encode_map_raises self m) as [e He]. by rewrite He.
  - done.
  - done.
Qed.

Lemma encode_all_frags :
  forall (self : SFNGenerator.t) (sts : list State) (acc payloads : list json)
         (r r' : rng),
    Generator.encode_all self sts acc r = Ok (payloads, r') ->
    exists frags,
      payloads = acc ++ frags
      /\ Forall2
           (fun s frag =>
              parsed_variant s = true
              /\ exists fd, frag = JDict fd
                            /\ dict_get "Name" fd = Some (JStr (State_name s))
                            /\ dict_get "Branches" fd = None)
           sts frags
      /\ Forall (fun s => task_or_switch s = true) sts
      /\ r' = r.
Proof.
  intros self sts. induction sts as [|s sts IH]; intros acc payloads r r'.
  - simpl. unfold mret. intros [= <- <-]. exists [].
    rewrite app_nil_r. split; [done|]. split; [constructor|].
    split; [constructor|done].
  - cbn [Generator.encode_all]. unfold mbind.
    destruct (Generator.encode_state self s r) as [[obj r1]|] eqn:Hs; [|done].
    destruct (encode_state_frag _ _ _ _ _ Hs)
      as (Hv & (fd & -> & Hname & Hbr) & ->).
    intros Hrest. apply IH in Hrest as (frags & -> & Hall & Hts & ->).
    exists (JDict fd :: frags). rewrite <- app_assoc. split; [done|].
    split; [|split; [by constructor|done]].
    constructor; [|done]. split; [by destruct s|]. by exists fd.
Qed.

(** X6: when the encoding loop of [generate] goes through, every state is
    a task or a switch, for a map state stops the loop as a loop or
    parallel state does; the loop has built exactly one fragment per state,
    in the order of the states, each a dictionary named after its state and
    without [Branches]; and it has drawn no identifier. *)
Theorem encode_all_one_fragment_per_state :
  forall (self : SFNGenerator.t) (sts : list State) (acc payloads : list json)
         (r r' : rng),
    Generator.encode_all self sts acc r = Ok (payloads, r') ->
    Forall (fun s => task_or_switch s = true) sts
    /\ (exists frags,
          payloads = acc ++ frags
          /\ Forall2
               (fun s frag =>
                  exists fd, frag = JDict fd
                             /\ dict_get "Name" fd
                                = Some (JStr (State_name s))
                             /\ dict_get "Branches" fd = None)
               sts frags)
    /\ length payloads = (length acc + length sts)%nat
    /\ r' = r.
Proof.
  intros self sts acc payloads r r' Henc.
  destruct (encode_all_frags _ _ _ _ _ _ Henc)
    as (frags & -> & Hall & Hts & ->).
  split; [done|]. split; [|split; [|done]].
  - exists frags. split; [done|].
    eapply Forall2_impl; [exact Hall|]. by intros s frag [_ Hfd].
  - rewrite length_app. by rewrite (Forall2_length _ _ _ Hall).
Qed.

Lemma encode_all_one_fragment_per_state_witness :
  exists frags,
    Generator.encode_all (Examples.sfn Examples.arns_f)
      [STask (Task.Build "a" (JStr "f") (JStr "s"));
       SSwitch (Switch.Build "s" [] (JStr "a"))] [] Examples.counting_rng
    = Ok (frags, Examples.counting_rng)
    /\ length frags = 2%nat.
Proof.
  eexists. split; [vm_compute; reflexivity|].
  destruct (encode_all_one_fragment_per_state
              (Examples.sfn Examples.arns_f)
              [STask (Task.Build "a" (JStr "f") (JStr "s"));
               SSwitch (Switch.Build "s" [] (JStr "a"))] [] _
              Examples.counting_rng _ eq_refl)
    as (_ & _ & Hlen & _).
  exact Hlen.
Defined.

(** X7: [generate] has no encoder for loop and parallel states: a graph
    that holds one makes the encoding loop raise [ValueError] once the
    states before it encode, and [generate] raises it too; [encode_loop]
    and [encode_parallel] are not reached. *)
Theorem generate_rejects_loop_and_parallel :
  forall (self : SFNGenerator.t) (pre post : list State) (s : State)
         (payloads : list json) (r r' : rng),
    map snd (SFNGenerator.states self) = pre ++ s :: post ->
    parsed_variant s = false ->
    Generator.encode_all self pre [] r = Ok (payloads, r') ->
    Generator.encode_all self (map snd (SFNGenerator.states self)) [] r
    = Raise ValueError
    /\ Generator.generate self r = Raise ValueError.
Proof.
  intros self pre post s payloads r r' Hsts Hs Hpre.
  destruct (encode_all_fails_at self pre post s [] r ValueError)
    as (e & He & Hsame).
  { intros r0. by destruct s. }
  rewrite (Hsame _ _ Hpre) in He.
  rewrite generate_outcome, Hsts, He. by split.
Qed.

Lemma generate_rejects_loop_and_parallel_witness :
  value (Generator.generate
           (SFNGenerator.Build Examples.arns_f Reference.dumps
              [("a", STask (Task.Build "a" (JStr "f") (JStr "l")));
               ("l", SLoop Examples.a_loop)]
              (STask (Task.Build "a" (JStr "f") (JStr "l"))))
           Examples.counting_rng)
  = Raise ValueError.
Proof.
  destruct (generate_rejects_loop_and_parallel
              (SFNGenerator.Build Examples.arns_f Reference.dumps
                 [("a", STask (Task.Build "a" (JStr "f") (JStr "l")));
                  ("l", SLoop Examples.a_loop)]
                 (STask (Task.Build "a" (JStr "f") (JStr "l"))))
              [STask (Task.Build "a" (JStr "f") (JStr "l"))] []
              (SLoop Examples.a_loop) _ Examples.counting_rng _
              eq_refl eq_refl eq_refl)
    as [_ Hgen].
  by rewrite Hgen.
Defined.

(** ** Indexing fragments by name: [list2dict] and [postprocess] *)

Lemma dict_get_del_ne {V} (k k' : string) (d : list (string * V)) :
  k <> k' -> dict_get k (dict_del k' d) = dict_get k d.
Proof.
  intros Hne. induction d as [|[k0 v0] d IH]; simpl; [done|].
  destruct (String.eqb k' k0) eqn:E; simpl.
  - apply String.eqb_eq in E. subst k0. apply String.eqb_neq in Hne.
    by rewrite Hne.
  - by rewrite IH.
Qed.

Lemma dict_get_del_eq {V} (k : string) (d : list (string * V)) :
  NoDup (map fst d) -> dict_get k (dict_del k d) = None.
Proof.
  induction d as [|[k0 v0] d IH]; simpl; [done|].
  intros [Hnotin Hnd]%NoDup_cons.
  destruct (String.eqb k k0) eqn:E; simpl.
  - apply String.eqb_eq in E. subst k0. by apply dict_get_None_keys.
  - rewrite E. by apply IH.
Qed.

Lemma fold_dict_set_fresh {V} (kvs acc : list (string * V)) :
  NoDup (map fst acc ++ map fst kvs) ->
  fold_left (fun d kv => dict_set (fst kv) (snd kv) d) kvs acc = acc ++ kvs.
Proof.
  revert acc. induction kvs as [|[k v] kvs IH]; intros acc Hnd; simpl.
  - by rewrite app_nil_r.
  - assert (k ∉ map fst acc) as Hfresh.
    { apply NoDup_app in Hnd as (_ & Hdis & _). intros Hin.
      apply (Hdis _ Hin). apply elem_of_cons. by left. }
    rewrite (dict_set_fresh _ _ _ Hfresh), IH.
    + by rewrite <- app_assoc.
    + rewrite map_app. simpl. rewrite <- app_assoc. exact Hnd.
Qed.

Lemma list2dict_from_named (key : string)
    (items : list (string * list (string * json)))
    (acc : list (string * json)) :
  Forall (fun nd => dict_get key (snd nd) = Some (JStr (fst nd))) items ->
  list2dict_from acc (map (fun nd => JDict (snd nd)) items) key
  = Ok (fold_left (fun d kv => dict_set (fst kv) (snd kv) d)
          (map (fun nd => (fst nd, JDict (dict_del key (snd nd)))) items)
          acc).
Proof.
  intros Hall. revert acc.
  induction Hall as [|[n d] items Hn _ IH]; intros acc; simpl; [done|].
  simpl in Hn. rewrite Hn. simpl. apply IH.
Qed.

Lemma list2dict_named (key : string)
    (items : list (string * list (string * json))) :
  Forall (fun nd => dict_get key (snd nd) = Some (JStr (fst nd))) items ->
  NoDup (map fst items) ->
  list2dict (map (fun nd => JDict (snd nd)) items) key
  = Ok (map (fun nd => (fst nd, JDict (dict_del key (snd nd)))) items).
Proof.
  intros Hall Hnd. unfold list2dict.
  rewrite (list2dict_from_named _ _ _ Hall), fold_dict_set_fresh; [done|].
  simpl. by rewrite map_map.
Qed.

(** X8: [list2dict(lst, key)] turns a list of dictionaries into one
    dictionary from each item's value under [key] to the item without that
    entry: an item stored under a name met before replaces the earlier one
    in the position of the earlier one, and with distinct names the result
    has the items in their order, each found under its name and none still
    holding [key]. *)
Theorem list2dict_indexes_by_key :
  forall (key : string) (items : list (string * list (string * json))),
    Forall (fun nd => dict_get key (snd nd) = Some (JStr (fst nd))) items ->
    list2dict (map (fun nd => JDict (snd nd)) items) key
    = Ok (dict_of
            (map (fun nd => (fst nd, JDict (dict_del key (snd nd)))) items))
    /\ (NoDup (map fst items) ->
        list2dict (map (fun nd => JDict (snd nd)) items) key
        = Ok (map (fun nd => (fst nd, JDict (dict_del key (snd nd)))) items)
        /\ forall n d,
             (n, d) ∈ items ->
             dict_get n
               (map (fun nd => (fst nd, JDict (dict_del key (snd nd)))) items)
             = Some (JDict (dict_del key d))
             /\ (NoDup (map fst d) -> dict_get key (dict_del key d) = None)).
Proof.
  intros key items Hall. split.
  - unfold list2dict, dict_of. by apply list2dict_from_named.
  - intros Hnd. split; [by apply list2dict_named|].
    intros n d Hin. split; [|apply dict_get_del_eq].
    clear Hall. induction items as [|[n0 d0] items IH]; simpl.
    + by apply elem_of_nil in Hin.
    + apply NoDup_cons in Hnd as [Hnotin Hnd].
      apply elem_of_cons in Hin as [[= -> ->]|Hin].
      * by rewrite String.eqb_refl.
      * destruct (String.eqb n n0) eqn:E; [|by apply IH].
        apply String.eqb_eq in E. subst n0. exfalso. apply Hnotin.
        apply list_elem_of_fmap. by exists (n, d).
Qed.

Lemma list2dict_indexes_by_key_witness :
  list2dict [JDict [("Name", JStr "a"); ("Type", JStr "Task")];
             JDict [("Name", JStr "b"); ("Type", JStr "Choice")]] "Name"
  = Ok [("a", JDict [("Type", JStr "Task")]);
        ("b", JDict [("Type", JStr "Choice")])].
Proof.
  destruct (list2dict_indexes_by_key "Name"
              [("a", [("Name", JStr "a"); ("Type", JStr "Task")]);
               ("b", [("Name", JStr "b"); ("Type", JStr "Choice")])])
    as [_ Hnd].
  - repeat constructor.
  - destruct Hnd as [Heq _]; [|exact Heq].
    apply (bool_decide_unpack _). vm_compute. reflexivity.
Defined.

(** X9: [list2dict] raises at the first item it cannot index: [KeyError]
    carrying [key] for a dictionary without the key, [TypeError] for an item
    that is no dictionary; no dictionary is returned. *)
Theorem list2dict_item_without_key :
  forall (key : string) (items : list (string * list (string * json)))
         (item : json) (rest : list json),
    Forall (fun nd => dict_get key (snd nd) = Some (JStr (fst nd))) items ->
    (forall d, item = JDict d -> dict_get key d = None) ->
    list2dict (map (fun nd => JDict (snd nd)) items ++ item :: rest) key
    = Raise (match item with
             | JDict _ => KeyError (JStr key)
             | _ => TypeError
             end).
Proof.
  intros key items item rest Hall Hitem. unfold list2dict.
  generalize (@nil (string * json)) as acc.
  induction Hall as [|[n d] items Hn _ IH]; intros acc; simpl.
  - destruct item as [| | | | | |d]; simpl; try done.
    by rewrite (Hitem d eq_refl).
  - simpl in Hn. rewrite Hn. simpl. apply IH.
Qed.

Lemma list2dict_item_without_key_witness :
  list2dict [JDict [("Name", JStr "a")]; JDict [("Type", JStr "Task")]]
    "Name"
  = Raise (KeyError (JStr "Name")).
Proof.
  apply (list2dict_item_without_key "Name" [("a", [("Name", JStr "a")])]
           (JDict [("Type", JStr "Task")]) []).
  - repeat constructor.
  - by intros d [= <-].
Defined.

Lemma frags_as_items (sts : list State) (frags : list json) :
  Forall2
    (fun s frag =>
       parsed_variant s = true
       /\ exists fd, frag = JDict fd
                     /\ dict_get "Name" fd = Some (JStr (State_name s))
                     /\ dict_get "Branches" fd = None)
    sts frags ->
  exists items : list (string * list (string * json)),
    frags = map (fun nd => JDict (snd nd)) items
    /\ map fst items = map State_name sts
    /\ Forall (fun nd => dict_get "Name" (snd nd) = Some (JStr (fst nd)))
         items
    /\ Forall (fun nd => dict_get "Branches" (snd nd) = None) items.
Proof.
  induction 1 as [|s frag sts frags (_ & fd & -> & Hn & Hb) _ IH].
  - by exists [].
  - destruct IH as (items & -> & Hnames & Hall & Hbr).
    exists ((State_name s, fd) :: items). simpl.
    split; [done|]. split; [by rewrite Hnames|]. by split; constructor.
Qed.

Lemma reindex_all_without_branches
    (items : list (string * list (string * json))) :
  Forall (fun nd => dict_get "Branches" (snd nd) = None) items ->
  SFNGenerator.reindex_all
    (map (fun nd => (fst nd, JDict (dict_del "Name" (snd nd)))) items)
  = Ok (map (fun nd => (fst nd, JDict (dict_del "Name" (snd nd)))) items).
Proof.
  induction 1 as [|[n d] items Hb _ IH]; simpl; [done|].
  simpl in Hb. rewrite dict_get_del_ne, Hb by done. simpl.
  by rewrite IH.
Qed.

(** X10: applied to the fragments of an encoding loop that went through
    over states with distinct names, [postprocess(payloads)] returns the
    document whose [StartAt] is the name of the root and whose [States]
    holds, under the name of each state and in the order of the states, the
    fragment of that state without its [Name] entry. *)
Theorem postprocess_indexes_the_fragments :
  forall (self : SFNGenerator.t) (sts : list State) (payloads : list json)
         (r r' : rng),
    Generator.encode_all self sts [] r = Ok (payloads, r') ->
    NoDup (map State_name sts) ->
    exists (items : list (string * list (string * json))),
      payloads = map (fun nd => JDict (snd nd)) items
      /\ map fst items = map State_name sts
      /\ SFNGenerator.postprocess self [APayloads payloads]
         = Ok (JDict
                 [("Comment", JStr "SeBS auto-generated benchmark");
                  ("StartAt", JStr (State_name (SFNGenerator.root self)));
                  ("States",
                   JDict (map (fun nd =>
                                 (fst nd, JDict (dict_del "Name" (snd nd))))
                            items))]).
Proof.
  intros self sts payloads r r' Henc Hnd.
  apply encode_all_frags in Henc as (frags & -> & Hall & _).
  apply frags_as_items in Hall as (items & -> & Hnames & Hnamed & Hbr).
  exists items. split; [done|]. split; [done|].
  simpl. unfold SFNGenerator.postprocess_body.
  rewrite list2dict_named by (done || by rewrite Hnames). simpl.
  by rewrite reindex_all_without_branches.
Qed.

Lemma postprocess_indexes_the_fragments_witness :
  SFNGenerator.postprocess (Examples.sfn Examples.arns_f)
    [APayloads
       [JDict [("Name", JStr "a"); ("Type", JStr "Task");
               ("Resource", JStr "arn:aws:lambda:f");
               ("Parameters",
                JDict [("request_id.$", JStr "$.request_id");
                       ("payload.$", JStr "$.payload")]);
               ("ResultPath", JStr "$.payload"); ("End", JBool true)]]]
  = Ok (JDict
          [("Comment", JStr "SeBS auto-generated benchmark");
           ("StartAt", JStr "a");
           ("States",
            JDict [("a",
                    JDict [("Type", JStr "Task");
                           ("Resource", JStr "arn:aws:lambda:f");
                           ("Parameters",
                            JDict [("request_id.$", JStr "$.request_id");
                                   ("payload.$", JStr "$.payload")]);
                           ("ResultPath", JStr "$.payload");
                           ("End", JBool true)])])]).
Proof.
  destruct (postprocess_indexes_the_fragments
              (Examples.sfn Examples.arns_f)
              [STask (Task.Build "a" (JStr "f") JNull)] _
              Examples.counting_rng _ eq_refl)
    as (items & Hitems & _ & Hpost).
  - apply (bool_decide_unpack _). vm_compute. reflexivity.
  - reflexivity.
Defined.

Lemma dict_get_zip (names : list string) (ps : list json) (i : nat)
    (n : string) (p : json) :
  NoDup names -> names !! i = Some n -> ps !! i = Some p ->
  dict_get n (zip names ps) = Some p.
Proof.
  revert ps i. induction names as [|n0 names IH]; intros [|p0 ps] [|i] Hnd;
    simpl; try done.
  - intros [= ->] [= ->]. by rewrite String.eqb_refl.
  - apply NoDup_cons in Hnd as [Hnotin Hnd]. intros Hn Hp.
    destruct (String.eqb n n0) eqn:E; [|by eapply IH].
    apply String.eqb_eq in E. subst n0. exfalso. apply Hnotin.
    by eapply list_elem_of_lookup_2.
Qed.

(** X11: the inherited [Generator.postprocess(states, payloads)] pairs the
    states with the payloads position by position and stops at the shorter
    list: with one payload per state and distinct names each state's name
    maps to its payload, and payloads beyond the number of states (as when
    an encoder returned a list for one state) are left out. *)
Theorem base_postprocess_pairs_by_position :
  forall (sts : list State) (payloads extra : list json),
    length payloads = length sts ->
    NoDup (map State_name sts) ->
    Generator.base_postprocess sts (payloads ++ extra)
    = JDict (zip (map State_name sts) payloads)
    /\ forall i s p,
         sts !! i = Some s -> payloads !! i = Some p ->
         getitem (Generator.base_postprocess sts (payloads ++ extra))
           (State_name s) = Ok p.
Proof.
  intros sts payloads extra Hlen Hnd.
  assert (Generator.base_postprocess sts (payloads ++ extra)
          = JDict (zip (map State_name sts) payloads)) as Heq.
  { unfold Generator.base_postprocess, dict_of. f_equal.
    replace (zip (map State_name sts) (payloads ++ extra))
      with (zip (map State_name sts) payloads).
    - rewrite fold_dict_set_fresh; [done|]. simpl.
      rewrite fst_zip; [done|]. rewrite length_map. lia.
    - rewrite <- (app_nil_r (map State_name sts)) at 2.
      rewrite zip_with_app by (rewrite length_map; lia).
      by rewrite app_nil_r. }
  split; [done|]. intros i s p Hs Hp. rewrite Heq. unfold getitem.
  rewrite (dict_get_zip _ _ i (State_name s) p); try done.
  by rewrite list_lookup_fmap, Hs.
Qed.

Lemma base_postprocess_pairs_by_position_witness :
  Generator.base_postprocess
    [STask (Task.Build "a" JNull JNull); STask (Task.Build "b" JNull JNull)]
    [JInt 1; JInt 2; JInt 3]
  = JDict [("a", JInt 1); ("b", JInt 2)].
Proof.
  destruct (base_postprocess_pairs_by_position
              [STask (Task.Build "a" JNull JNull);
               STask (Task.Build "b" JNull JNull)]
              [JInt 1; JInt 2] [JInt 3] eq_refl) as [Heq _].
  - apply (bool_decide_unpack _). vm_compute. reflexivity.
  - exact Heq.
Defined.

(** ** Invocations through the library triggers *)

(** X12: when the platform answers a synchronous invocation with a status
    code other than 200, or with a [FunctionError] entry, the function
    library trigger raises nothing: it returns the result of the two time
    stamps with the request identifier and the failure flag set, and reads
    neither the log nor the output of the function.  It has waited for the
    function and invoked it once. *)
Theorem function_sync_invoke_flags_failure :
  forall `{World} (name : json) (client : AWS) (payload ret meta rid
                   status : json) (fuel : nat) (h : trace),
    let args := [("FunctionName", name);
                 ("Payload", JStr (json_dumps payload));
                 ("LogType", JStr "Tail")] in
    let h1 := h ++ [WaitForFunction name] in
    let h2 := h1 ++ [LambdaInvoke args] in
    lambda_invoke args h1 = Ok ret ->
    getitem ret "ResponseMetadata" = Ok meta ->
    getitem meta "RequestId" = Ok rid ->
    getitem ret "StatusCode" = Ok status ->
    eq_int status 200 = false \/ raises (getitem ret "FunctionError") = false ->
    AWS.FunctionLibraryTrigger.sync_invoke
      (AWS.LibraryTrigger.Build _ name (Some client)) payload fuel h
    = Some (Ok (set_failure
                  (set_request_id (from_times (now h1) (now h2)) rid)),
            h2).
Proof.
  intros P W name client payload ret meta rid status fuel h args h1 h2
    Hret Hmeta Hrid Hstatus Hfail.
  unfold AWS.FunctionLibraryTrigger.sync_invoke. simpl.
  fold args. fold h1. rewrite Hret. simpl.
  unfold AWS.FunctionLibraryTrigger.read_result.
  rewrite Hmeta. simpl. rewrite Hrid. simpl. rewrite Hstatus. simpl.
  destruct (eq_int status 200); simpl; [|done].
  destruct Hfail as [Hf|Hf]; [done|].
  by destruct (getitem ret "FunctionError").
Qed.

Lemma function_sync_invoke_flags_failure_witness :
  exists res h',
    @AWS.FunctionLibraryTrigger.sync_invoke _
      {| now := Reference.slept;
         receive_message := fun _ _ => "";
         _http_invoke := fun _ _ _ => Raise RuntimeError;
         lambda_invoke :=
           fun _ _ =>
             Ok (JDict [("StatusCode", JInt 500);
                        ("ResponseMetadata",
                         JDict [("RequestId", JStr "req-9")])]);
         start_execution := fun _ _ _ => Raise RuntimeError;
         describe_execution := fun _ _ => Raise RuntimeError |}
      Examples.library_trigger Examples.a_payload 0 []
    = Some (Ok res, h')
    /\ Reference.failure res = true
    /\ Reference.request_id res = JStr "req-9".
Proof.
  eexists _, _. split; [|split].
  1: exact (@function_sync_invoke_flags_failure _
           {| now := Reference.slept;
              receive_message := fun _ _ => "";
              _http_invoke := fun _ _ _ => Raise RuntimeError;
              lambda_invoke :=
                fun _ _ =>
                  Ok (JDict [("StatusCode", JInt 500);
                             ("ResponseMetadata",
                              JDict [("RequestId", JStr "req-9")])]);
              start_execution := fun _ _ _ => Raise RuntimeError;
              describe_execution := fun _ _ => Raise RuntimeError |}
           (JStr "f") tt Examples.a_payload _ _ _ _ 0 []
           eq_refl eq_refl eq_refl eq_refl (or_introl eq_refl)).
  all: reflexivity.
Defined.

Lemma workflow_poll_returns `{World} (arn status : json)
    (aws_result : ExecutionResult) (n extra : nat) (h : trace) :
  (forall k, (k < n)%nat ->
     exists st,
       (execution <- describe_execution arn (h ++ running_polls arn k);;
        getitem execution "status") = Ok st
       /\ eq_str st "RUNNING" = true) ->
  (execution <- describe_execution arn (h ++ running_polls arn n);;
   getitem execution "status") = Ok status ->
  eq_str status "RUNNING" = false ->
  AWS.WorkflowLibraryTrigger.poll (S n + extra) arn aws_result h
  = Some (Ok (if eq_str status "FAILED" then set_failure aws_result
              else aws_result),
          h ++ running_polls arn n ++ [DescribeExecution arn]).
Proof.
  revert h. induction n as [|n IH]; intros h Hrun Hst Hdone.
  - change (running_polls arn 0) with (@nil event) in Hst |- *.
    rewrite app_nil_r in Hst. simpl. rewrite Hst, Hdone.
    by destruct (eq_str status "FAILED").
  - cbn [Nat.add AWS.WorkflowLibraryTrigger.poll].
    destruct (Hrun 0%nat ltac:(lia)) as (st0 & Hst0 & Hrunning).
    change (running_polls arn 0) with (@nil event) in Hst0.
    rewrite app_nil_r in Hst0. rewrite Hst0, Hrunning.
    change (running_polls arn (S n))
      with ([DescribeExecution arn; Sleep 10] ++ running_polls arn n)
      in Hst |- *.
    replace (h ++ [DescribeExecution arn; Sleep 10] ++ running_polls arn n)
      with (((h ++ [DescribeExecution arn]) ++ [Sleep 10])
              ++ running_polls arn n)
      in Hst by by rewrite <- !app_assoc.
    replace (h ++ ([DescribeExecution arn; Sleep 10] ++ running_polls arn n)
               ++ [DescribeExecution arn])
      with (((h ++ [DescribeExecution arn]) ++ [Sleep 10])
              ++ running_polls arn n ++ [DescribeExecution arn])
      by by rewrite <- !app_assoc.
    apply IH; [|done|done].
    intros k Hk. destruct (Hrun (S k) ltac:(lia)) as (st & Hstk & Hr).
    exists st. split; [|done].
    change (running_polls arn (S k))
      with ([DescribeExecution arn; Sleep 10] ++ running_polls arn k)
      in Hstk.
    by rewrite <- !app_assoc.
Qed.

(** X13: the workflow library trigger starts the execution once and asks
    for its status every ten seconds while the status is [RUNNING].  At the
    first other status it returns without raising: with the failure flag
    set for [FAILED], and as a success for every other status, whatever it
    is. *)
Theorem workflow_sync_invoke_polls_until_not_running :
  forall `{World} (name : json) (client : AWS) (payload ret meta rid arn
                   status : json) (n extra : nat) (h : trace),
    let input := json_dumps payload in
    let h1 := h ++ [StartExecution name input] in
    start_execution name input h = Ok ret ->
    getitem ret "ResponseMetadata" = Ok meta ->
    getitem meta "RequestId" = Ok rid ->
    getitem ret "executionArn" = Ok arn ->
    (forall k, (k < n)%nat ->
       exists st,
         (execution <- describe_execution arn (h1 ++ running_polls arn k);;
          getitem execution "status") = Ok st
         /\ eq_str st "RUNNING" = true) ->
    (execution <- describe_execution arn (h1 ++ running_polls arn n);;
     getitem execution "status") = Ok status ->
    eq_str status "RUNNING" = false ->
    AWS.WorkflowLibraryTrigger.sync_invoke
      (AWS.LibraryTrigger.Build _ name (Some client)) payload
      (S n + extra) h
    = Some (Ok (let aws_result :=
                  set_request_id (from_times (now h) (now h1)) rid in
                if eq_str status "FAILED" then set_failure aws_result
                else aws_result),
            h1 ++ running_polls arn n ++ [DescribeExecution arn]).
Proof.
  intros P W name client payload ret meta rid arn status n extra h input h1
    Hret Hmeta Hrid Harn Hrun Hst Hdone.
  unfold AWS.WorkflowLibraryTrigger.sync_invoke.
  cbn [AWS.LibraryTrigger.deployment_client
       AWS.LibraryTrigger._deployment_client AWS.LibraryTrigger.name
       assert_some].
  fold input. rewrite Hret. cbn [rbind]. rewrite Hmeta. cbn [rbind].
  rewrite Hrid. cbn [rbind]. rewrite Harn. cbn [rbind]. fold h1.
  by apply workflow_poll_returns.
Qed.

Lemma workflow_sync_invoke_polls_until_not_running_witness :
  exists res,
    @AWS.WorkflowLibraryTrigger.sync_invoke _ (Reference.world 1)
      Examples.library_trigger Examples.a_payload 2 []
    = Some (Ok res,
            [StartExecution (JStr "f") (json_dumps Examples.a_payload);
             DescribeExecution (JStr "arn:execution"); Sleep 10;
             DescribeExecution (JStr "arn:execution")])
    /\ Reference.failure res = false.
Proof.
  eexists. split.
  - refine (@workflow_sync_invoke_polls_until_not_running _
              (Reference.world 1) (JStr "f") tt Examples.a_payload _ _ _ _
              (JStr "SUCCEEDED") 1 0 [] eq_refl eq_refl eq_refl eq_refl
              _ eq_refl eq_refl).
    intros k Hk. assert (k = 0)%nat as -> by lia.
    exists (JStr "RUNNING"). split; reflexivity.
  - reflexivity.
Defined.

(** ** Invocations through the queue and storage triggers *)

Lemma seconds_slept_app `{Platform} (a b : trace) :
  seconds_slept (a ++ b) = (seconds_slept a + seconds_slept b)%Z.
Proof.
  unfold seconds_slept. induction a as [|e a IH]; simpl; [lia|].
  destruct e; simpl; lia.
Qed.

Lemma seconds_slept_empty_polls `{Platform} (q : AzureQueue) (n : nat) :
  seconds_slept (empty_polls q n) = (5 * Z.of_nat n)%Z.
Proof.
  induction n as [|n IH]; [done|].
  rewrite empty_polls_S, seconds_slept_app, IH.
  unfold seconds_slept. simpl. lia.
Qed.

Lemma clock_over_stretch `{World} (t h : trace) :
  clock_counts_sleep -> (now h + seconds_slept t <= now (h ++ t))%Z.
Proof.
  intros Hclock. revert h. induction t as [|e t IH]; intros h.
  - rewrite app_nil_r. unfold seconds_slept. simpl. lia.
  - replace (h ++ e :: t) with ((h ++ [e]) ++ t) by by rewrite <- app_assoc.
    specialize (IH (h ++ [e])). specialize (Hclock h e).
    change (e :: t) with ([e] ++ t). rewrite seconds_slept_app.
    unfold seconds_slept at 1. simpl. destruct e; lia.
Qed.

(** X14: the queue trigger sends the encoded payload once to its trigger
    queue and then polls its result queue; when the answer comes after [n]
    empty polls, [sync_invoke] returns the output parsed from that answer,
    having slept [5 n] seconds, and the interval it reports runs from before
    the send to after the receive: on a clock that counts the sleeps it is
    at least [5 n] seconds long. *)
Theorem queue_sync_invoke_measures_the_polling :
  forall `{World} (t : Azure.QueueTrigger.t) (q rq : AzureQueue)
         (payload : json) (n extra : nat) (h : trace),
    let h1 := h ++ [SendMessage q (b64encode (json_dumps payload))] in
    let hf := h1 ++ empty_polls rq n ++ [ReceiveMessage rq] in
    Azure.QueueTrigger._queue t = Some q ->
    Azure.QueueTrigger._result_queue t = Some rq ->
    (forall k, (k < n)%nat ->
               receive_message rq (h1 ++ empty_polls rq k) = "") ->
    receive_message rq (h1 ++ empty_polls rq n) <> "" ->
    Azure.QueueTrigger.sync_invoke t payload (S n + extra) h
    = Some (out <- json_loads
                     (JStr (receive_message rq (h1 ++ empty_polls rq n)));;
            parse_benchmark_output (from_times (now h) (now hf)) out,
            hf)
    /\ seconds_slept (empty_polls rq n ++ [ReceiveMessage rq])
       = (5 * Z.of_nat n)%Z
    /\ (clock_counts_sleep -> (now h + 5 * Z.of_nat n <= now hf)%Z).
Proof.
  intros P W t q rq payload n extra h h1 hf Hq Hrq Hempty Hmsg.
  split; [|split].
  - unfold Azure.QueueTrigger.sync_invoke, Azure.QueueTrigger.queue.
    rewrite Hq, Hrq. cbn [assert_some]. fold h1.
    by rewrite (queue_poll_returns rq n extra h1 Hempty Hmsg).
  - rewrite seconds_slept_app, seconds_slept_empty_polls.
    unfold seconds_slept. simpl. lia.
  - intros Hclock. unfold hf, h1. rewrite <- app_assoc.
    pose proof (clock_over_stretch
                  ([SendMessage q (b64encode (json_dumps payload))]
                     ++ empty_polls rq n ++ [ReceiveMessage rq]) h Hclock)
      as Hle.
    rewrite !seconds_slept_app, seconds_slept_empty_polls in Hle.
    unfold seconds_slept in Hle. simpl in Hle. simpl. lia.
Qed.

Lemma reference_clock_counts_sleep (ready : nat) :
  @clock_counts_sleep _ (Reference.world ready).
Proof.
  intros h e. simpl. induction h as [|e0 h IH]; simpl.
  - destruct e; lia.
  - destruct e0; lia.
Qed.

Lemma queue_sync_invoke_measures_the_polling_witness :
  exists res hf,
    @Azure.QueueTrigger.sync_invoke _ (Reference.world 2)
      Examples.queue_trigger Examples.a_payload 3 []
    = Some (Ok res, hf)
    /\ (Reference.begin res + 10 <= Reference.finish res)%Z.
Proof.
  destruct (@queue_sync_invoke_measures_the_polling _ (Reference.world 2)
              Examples.queue_trigger Examples.trigger_queue_f
              Examples.result_queue_f Examples.a_payload 2 0 []
              eq_refl eq_refl)
    as (Hinv & _ & Hclock).
  - intros k Hk. destruct k as [|[|k]]; [reflexivity|reflexivity|lia].
  - vm_compute. discriminate.
  - eexists _, _. split; [exact Hinv|].
    exact (Hclock (reference_clock_counts_sleep 2)).
Defined.

(** X15: the storage trigger writes the payload to a file, uploads it to
    its container and then polls its result queue, sleeping before every
    receive; when the answer comes at the receive number [n + 1],
    [sync_invoke] returns the output parsed from it, and the interval it
    reports, which starts before the upload, is at least [5 (n + 1)]
    seconds long on a clock that counts the sleeps. *)
Theorem storage_sync_invoke_measures_the_polling :
  forall `{World} (t : Azure.StorageTrigger.t) (rq : AzureQueue)
         (payload sa c : json) (n extra : nat) (h : trace),
    let h0 := h ++ [WriteFile "payload.json" payload] in
    let h1 := h0 ++ [UploadBlob
                       ("https://" +:+ fmt sa +:+ ".blob.core.windows.net")
                       c "payload.json"] ++ [Sleep 5] in
    let hf := h1 ++ empty_polls rq n ++ [ReceiveMessage rq] in
    Azure.StorageTrigger.storage_account t = Ok sa ->
    Azure.StorageTrigger.container_name t = Ok c ->
    Azure.StorageTrigger._result_queue t = Some rq ->
    (forall k, (k < n)%nat ->
               receive_message rq (h1 ++ empty_polls rq k) = "") ->
    receive_message rq (h1 ++ empty_polls rq n) <> "" ->
    Azure.StorageTrigger.sync_invoke t payload (S n + extra) h
    = Some (out <- json_loads
                     (JStr (receive_message rq (h1 ++ empty_polls rq n)));;
            parse_benchmark_output (from_times (now h0) (now hf)) out,
            hf)
    /\ (clock_counts_sleep ->
        (now h0 + 5 * (Z.of_nat n + 1) <= now hf)%Z).
Proof.
  intros P W t rq payload sa c n extra h h0 h1 hf Hsa Hc Hrq Hempty Hmsg.
  split.
  - unfold Azure.StorageTrigger.sync_invoke, Azure.StorageTrigger.account_url.
    rewrite Hsa, Hc, Hrq. cbn [rbind]. fold h0.
    rewrite storage_poll_shifted.
    replace ((h0 ++ [UploadBlob
                       ("https://" +:+ fmt sa +:+ ".blob.core.windows.net")
                       c "payload.json"]) ++ [Sleep 5])
      with h1 by (unfold h1; by rewrite <- app_assoc).
    by rewrite (queue_poll_returns rq n extra h1 Hempty Hmsg).
  - intros Hclock. unfold hf, h1. rewrite <- !app_assoc.
    pose proof (clock_over_stretch
                  ([UploadBlob
                      ("https://" +:+ fmt sa +:+ ".blob.core.windows.net")
                      c "payload.json"]
                     ++ [Sleep 5] ++ empty_polls rq n ++ [ReceiveMessage rq])
                  h0 Hclock) as Hle.
    rewrite !seconds_slept_app, seconds_slept_empty_polls in Hle.
    unfold seconds_slept in Hle. simpl in Hle. simpl. lia.
Qed.

Lemma storage_sync_invoke_measures_the_polling_witness :
  exists res hf,
    @Azure.StorageTrigger.sync_invoke _ (Reference.world 1)
      Examples.storage_trigger Examples.a_payload 2 []
    = Some (Ok res, hf)
    /\ (Reference.begin res + 10 <= Reference.finish res)%Z.
Proof.
  destruct (@storage_sync_invoke_measures_the_polling _ (Reference.world 1)
              Examples.storage_trigger Examples.result_queue_f
              Examples.a_payload (JStr "account") (JStr "f") 1 0 []
              eq_refl eq_refl eq_refl)
    as (Hinv & Hclock).
  - intros k Hk. destruct k as [|k]; [reflexivity|lia].
  - vm_compute. discriminate.
  - eexists _, _. split; [exact Hinv|].
    exact (Hclock (reference_clock_counts_sleep 1)).
Defined.

Lemma empty_polls_shift `{Platform} (q : AzureQueue) (h : trace) (k : nat) :
  h ++ empty_polls q (S k)
  = ((h ++ [ReceiveMessage q]) ++ [Sleep 5]) ++ empty_polls q k.
Proof. rewrite empty_polls_S. by rewrite <- !app_assoc. Qed.

Lemma queue_poll_gives_up_iff `{World} (q : AzureQueue) (fuel : nat)
    (h : trace) :
  Azure.QueueTrigger.poll fuel (Some q) h = None
  <-> forall k, (k < fuel)%nat ->
                receive_message q (h ++ empty_polls q k) = "".
Proof.
  revert h. induction fuel as [|fuel IH]; intros h.
  - split; [intros _ k Hk; lia|done].
  - cbn [Azure.QueueTrigger.poll assert_some].
    destruct (String.eqb (receive_message q h) "") eqn:E.
    + apply String.eqb_eq in E. rewrite IH. split.
      * intros Hall [|k] Hk.
        -- simpl. by rewrite app_nil_r.
        -- rewrite empty_polls_shift. apply Hall. lia.
      * intros Hall k Hk. specialize (Hall (S k) ltac:(lia)).
        by rewrite empty_polls_shift in Hall.
    + apply String.eqb_neq in E. split; [done|].
      intros Hall. specialize (Hall 0%nat ltac:(lia)). simpl in Hall.
      by rewrite app_nil_r in Hall.
Qed.

Lemma queue_poll_result `{World} (rq : option AzureQueue) (fuel : nat)
    (h h' : trace) (out : res string) :
  Azure.QueueTrigger.poll fuel rq h = Some (out, h') ->
  match out with
  | Ok response =>
      response <> ""
      /\ exists q n,
           rq = Some q /\ (n < fuel)%nat
           /\ h' = h ++ empty_polls q n ++ [ReceiveMessage q]
           /\ response = receive_message q (h ++ empty_polls q n)
           /\ forall k, (k < n)%nat ->
                        receive_message q (h ++ empty_polls q k) = ""
  | Raise e => e = AssertionError /\ rq = None /\ h' = h
  end.
Proof.
  revert h. induction fuel as [|fuel IH]; intros h; [done|].
  cbn [Azure.QueueTrigger.poll]. destruct rq as [q|]; simpl.
  - destruct (String.eqb (receive_message q h) "") eqn:E.
    + apply String.eqb_eq in E. intros Hrest. apply IH in Hrest.
      destruct out as [response|e].
      * destruct Hrest as (Hne & q' & n & [= <-] & Hn & -> & -> & Hempty).
        split; [done|]. exists q, (S n).
        rewrite !empty_polls_shift.
        split; [done|]. split; [lia|].
        split; [by rewrite empty_polls_S, <- !app_assoc|]. split; [done|].
        intros [|k] Hk; [simpl; by rewrite app_nil_r|].
        rewrite empty_polls_shift. apply Hempty. lia.
      * by destruct Hrest as (_ & ? & _).
    + apply String.eqb_neq in E. intros [= <- <-]. split; [done|].
      exists q, 0%nat. simpl. rewrite app_nil_r.
      do 4 (split; [done || lia|]). intros k Hk. lia.
  - by intros [= <- <-].
Qed.

(** X16: in the runs in which the queue client answers every receive, the
    loop of the queue trigger returns only a non-empty answer, after
    nothing but receive attempts on the result queue with a sleep of five
    seconds after each empty one; and it has no deadline: however many
    rounds it is given, it is still polling exactly when every answer so
    far was empty.  A trigger without a result queue fails on the assertion
    of the property before any receive. *)
Theorem queue_poll_only_ends_with_a_message :
  forall `{World} (fuel : nat) (h : trace),
    (forall q h' response,
        Azure.QueueTrigger.poll fuel (Some q) h = Some (Ok response, h') ->
        response <> ""
        /\ exists n,
             (n < fuel)%nat
             /\ h' = h ++ empty_polls q n ++ [ReceiveMessage q]
             /\ response = receive_message q (h ++ empty_polls q n)
             /\ forall k, (k < n)%nat ->
                          receive_message q (h ++ empty_polls q k) = "")
    /\ (forall q,
           Azure.QueueTrigger.poll fuel (Some q) h = None
           <-> forall k, (k < fuel)%nat ->
                         receive_message q (h ++ empty_polls q k) = "")
    /\ Azure.QueueTrigger.poll (S fuel) None h
       = Some (Raise AssertionError, h).
Proof.
  intros P W fuel h. split; [|split].
  - intros q h' response Hpoll.
    destruct (queue_poll_result _ _ _ _ _ Hpoll)
      as (Hne & q' & n & [= <-] & Hn & Hh' & Hresp & Hempty).
    split; [done|]. by exists n.
  - intros q. apply queue_poll_gives_up_iff.
  - done.
Qed.

Lemma queue_poll_only_ends_with_a_message_witness :
  @Azure.QueueTrigger.poll _
    {| now := Reference.slept;
       receive_message := fun _ _ => "";
       _http_invoke := fun _ _ _ => Raise RuntimeError;
       lambda_invoke := fun _ _ => Raise RuntimeError;
       start_execution := fun _ _ _ => Raise RuntimeError;
       describe_execution := fun _ _ => Raise RuntimeError |}
    1000 (Some Examples.result_queue_f) []
  = None.
Proof.
  destruct (@queue_poll_only_ends_with_a_message _
              {| now := Reference.slept;
                 receive_message := fun _ _ => "";
                 _http_invoke := fun _ _ _ => Raise RuntimeError;
                 lambda_invoke := fun _ _ => Raise RuntimeError;
                 start_execution := fun _ _ _ => Raise RuntimeError;
                 describe_execution := fun _ _ => Raise RuntimeError |}
              1000 []) as (_ & Hnone & _).
  apply Hnone. intros k Hk. reflexivity.
Defined.

(** ** Constructing the Azure triggers *)

(** X17: a queue trigger built without queues creates its trigger queue and
    then its result queue, both named after the function, and nothing else;
    built with both queues it creates nothing.  The trigger so built
    serializes, and deserializing the record gives the same trigger back
    without creating anything again (the queue handles being assumed to
    round-trip through their own [serialize] and [deserialize]). *)
Theorem queue_trigger_provisions_once :
  forall `{Platform},
    (forall q, AzureQueue_deserialize (AzureQueue_serialize q) = Ok q) ->
    forall (fname sa rg : json) (h h' : trace),
      truthy sa = true -> truthy rg = true ->
      let q := AzureQueue_init fname TRIGGER sa rg in
      let rq := AzureQueue_init fname RESULT sa rg in
      let t := Azure.QueueTrigger.Build _ fname sa rg (Some q) (Some rq) in
      Azure.QueueTrigger.init fname sa rg None None h
      = (Ok t, h ++ [CreateQueue q; CreateQueue rq])
      /\ (forall q0 rq0,
            Azure.QueueTrigger.init fname sa rg (Some q0) (Some rq0) h
            = (Ok (Azure.QueueTrigger.Build _ fname sa rg (Some q0)
                     (Some rq0)), h))
      /\ exists record,
           Azure.QueueTrigger.serialize t = Ok record
           /\ Azure.QueueTrigger.deserialize record h' = (Ok t, h').
Proof.
  intros P Hq fname sa rg h h' Hsa Hrg q rq t. split; [|split].
  - unfold Azure.QueueTrigger.init, assert_truthy. rewrite Hsa, Hrg.
    cbn [rbind]. by rewrite <- app_assoc.
  - done.
  - eexists. split.
    + unfold Azure.QueueTrigger.serialize, Azure.QueueTrigger.storage_account,
        Azure.QueueTrigger.region, assert_truthy. simpl.
      rewrite Hsa, Hrg. reflexivity.
    + unfold Azure.QueueTrigger.deserialize. simpl. by rewrite !Hq.
Qed.

Lemma queue_trigger_provisions_once_witness :
  Azure.QueueTrigger.init (JStr "f") (JStr "account") (JStr "westeurope")
    None None []
  = (Ok Examples.queue_trigger,
     [CreateQueue Examples.trigger_queue_f;
      CreateQueue Examples.result_queue_f]).
Proof.
  assert (forall q : Reference.queue,
             Reference.queue_deserialize (Reference.queue_serialize q)
             = Ok q) as Hq.
  { intros [n [] sa rg]; reflexivity. }
  destruct (@queue_trigger_provisions_once Reference.platform Hq
              (JStr "f") (JStr "account") (JStr "westeurope") [] []
              eq_refl eq_refl) as (Hinit & _).
  exact Hinit.
Defined.

(** X18: a queue trigger that has to build a queue needs a storage account
    and a region: with the trigger queue missing and either of them empty,
    and with only the result queue missing and the region empty, the
    constructor fails on its assertion before anything is created. *)
Theorem queue_trigger_needs_account_and_region :
  forall `{Platform} (fname sa rg : json) (rqo : option AzureQueue)
         (h : trace),
    truthy sa = false \/ truthy rg = false ->
    Azure.QueueTrigger.init fname sa rg None rqo h = (Raise AssertionError, h)
    /\ (truthy rg = false ->
        forall q,
          Azure.QueueTrigger.init fname sa rg (Some q) None h
          = (Raise AssertionError, h)).
Proof.
  intros P fname sa rg rqo h Hfalsy. split.
  - unfold Azure.QueueTrigger.init, assert_truthy.
    destruct (truthy sa); simpl; [|done].
    destruct Hfalsy as [Hf|Hf]; [done|]. by rewrite Hf.
  - intros Hrg q. unfold Azure.QueueTrigger.init, assert_truthy.
    by rewrite Hrg.
Qed.

Lemma queue_trigger_needs_account_and_region_witness :
  Azure.QueueTrigger.init (JStr "f") (JStr "") (JStr "westeurope")
    None None []
  = (Raise AssertionError, []).
Proof.
  destruct (@queue_trigger_needs_account_and_region Reference.platform
              (JStr "f") (JStr "") (JStr "westeurope") None []
              (or_introl eq_refl)) as [Hinit _].
  exact Hinit.
Defined.

(** X19: a storage trigger built with a container name creates no
    container; built without one (or with an empty one) it names the
    container after the function and creates it, before the result queue if
    that is missing too.  Either way the trigger serializes, and
    deserializing the record gives it back without creating anything. *)
Theorem storage_trigger_container :
  forall `{Platform},
    (forall q, AzureQueue_deserialize (AzureQueue_serialize q) = Ok q) ->
    forall (fname sa rg c : json) (rq : AzureQueue) (h h' : trace),
      truthy fname = true -> truthy sa = true -> truthy rg = true ->
      let url := "https://" +:+ fmt sa +:+ ".blob.core.windows.net" in
      let c' := if truthy c then c else fname in
      let t := Azure.StorageTrigger.Build _ fname sa rg (Some rq) c' in
      Azure.StorageTrigger.init fname sa rg (Some rq) c h
      = (Ok t, if truthy c then h else h ++ [CreateContainer url fname])
      /\ (truthy c = false ->
          let rq' := AzureQueue_init fname RESULT sa rg in
          Azure.StorageTrigger.init fname sa rg None c h
          = (Ok (Azure.StorageTrigger.Build _ fname sa rg (Some rq') fname),
             h ++ [CreateContainer url fname; CreateQueue rq']))
      /\ exists record,
           Azure.StorageTrigger.serialize t = Ok record
           /\ Azure.StorageTrigger.deserialize record h' = (Ok t, h').
Proof.
  intros P Hq fname sa rg c rq h h' Hf Hsa Hrg url c' t.
  assert (truthy c' = true) as Hc'.
  { unfold c'. by destruct (truthy c) eqn:Hc. }
  split; [|split].
  - unfold Azure.StorageTrigger.init, assert_truthy, t, c'.
    destruct (truthy c); [done|]. by rewrite Hsa, Hf.
  - intros Hc rq'. unfold Azure.StorageTrigger.init, assert_truthy.
    rewrite Hc, Hsa, Hf, Hrg. cbn [rbind]. by rewrite <- app_assoc.
  - eexists. split.
    + unfold Azure.StorageTrigger.serialize,
        Azure.StorageTrigger.storage_account, Azure.StorageTrigger.region,
        Azure.StorageTrigger.container_name, assert_truthy. simpl.
      rewrite Hsa, Hrg, Hc'. reflexivity.
    + unfold Azure.StorageTrigger.deserialize. cbn -[truthy].
      rewrite !Hq. cbn -[truthy]. unfold Azure.StorageTrigger.init.
      by rewrite Hc'.
Qed.

Lemma storage_trigger_container_witness :
  Azure.StorageTrigger.init (JStr "f") (JStr "account") (JStr "westeurope")
    (Some Examples.result_queue_f) JNull []
  = (Ok Examples.storage_trigger,
     [CreateContainer "https://account.blob.core.windows.net" (JStr "f")]).
Proof.
  assert (forall q : Reference.queue,
             Reference.queue_deserialize (Reference.queue_serialize q)
             = Ok q) as Hq.
  { intros [n [] sa rg]; reflexivity. }
  destruct (@storage_trigger_container Reference.platform Hq
              (JStr "f") (JStr "account") (JStr "westeurope") JNull
              Examples.result_queue_f [] [] eq_refl eq_refl eq_refl)
    as (Hinit & _).
  exact Hinit.
Defined.

(** ** Triggers rebuilt from their records *)

(** X20: an Azure HTTP trigger rebuilt from its record has no data storage
    account: its [sync_invoke] fails on the assertion of the property and
    sends no request.  Once [cached_benchmark] has given it the account, it
    is the trigger that was serialized again, and [sync_invoke] posts to the
    URL the payload with the connection string of the account stored under
    [connection_string], leaving the other entries as they are. *)
Theorem azure_http_trigger_needs_its_account :
  forall `{World} (t : Azure.HTTPTrigger.t) (acct : Storage)
         (record : json) (d : list (string * json)) (fuel : nat)
         (h : trace),
    Azure.HTTPTrigger._data_storage_account t = Some acct ->
    Trigger.serialize (Trigger.AzureHTTP t) = Ok record ->
    exists t',
      Trigger.deserialize Trigger.AzureHTTPTrigger record h
      = (Ok (Trigger.AzureHTTP t'), h)
      /\ Azure.HTTPTrigger.sync_invoke t' (JDict d) fuel h
         = Some (Raise AssertionError, h)
      /\ cached_benchmark acct [Trigger.AzureHTTP t'] = [Trigger.AzureHTTP t]
      /\ (let payload :=
            JDict (dict_set "connection_string" (connection_string acct) d) in
          Azure.HTTPTrigger.sync_invoke t (JDict d) fuel h
          = Some (_http_invoke payload (Azure.HTTPTrigger.url t) h,
                  h ++ [HttpInvoke payload (Azure.HTTPTrigger.url t)])
          /\ forall k, k <> "connection_string" ->
                       getitem payload k = getitem (JDict d) k).
Proof.
  intros P W [url o] acct record d fuel h Ho Hser. simpl in Ho. subst o.
  injection Hser as <-.
  exists (Azure.HTTPTrigger.Build _ url None).
  split; [done|]. split; [done|]. split; [done|]. split; [done|].
  intros k Hk. unfold getitem. by rewrite dict_get_set_ne.
Qed.

Lemma azure_http_trigger_needs_its_account_witness :
  exists t',
    Trigger.deserialize Trigger.AzureHTTPTrigger
      (JDict [("type", JStr "HTTP");
              ("url", JStr "https://f.azurewebsites.net/api/f")]) []
    = (Ok (Trigger.AzureHTTP t'), [])
    /\ @Azure.HTTPTrigger.sync_invoke _ (Reference.world 0) t'
         (JDict []) 0 []
       = Some (Raise AssertionError, []).
Proof.
  destruct (@azure_http_trigger_needs_its_account _ (Reference.world 0)
              Examples.http_trigger (JStr "DefaultEndpointsProtocol=https")
              _ [] 0 [] eq_refl eq_refl)
    as (t' & Hdes & Hinv & _).
  exists t'. split; [exact Hdes|exact Hinv].
Defined.

(** X21: a library trigger rebuilt from its record has no deployment
    client: the synchronous invocations of the function and of the workflow
    trigger, and the asynchronous invocation of the function trigger, fail
    on the assertion of the property without calling the platform.  Setting
    the client gives the trigger that was serialized back. *)
Theorem library_trigger_needs_its_client :
  forall `{World} (t : AWS.LibraryTrigger.t) (client : AWS)
         (record payload : json) (fuel : nat) (h : trace),
    AWS.LibraryTrigger._deployment_client t = Some client ->
    AWS.LibraryTrigger.serialize t = Ok record ->
    exists t',
      AWS.LibraryTrigger.deserialize record = Ok t'
      /\ AWS.FunctionLibraryTrigger.sync_invoke t' payload fuel h
         = Some (Raise AssertionError, h)
      /\ AWS.WorkflowLibraryTrigger.sync_invoke t' payload fuel h
         = Some (Raise AssertionError, h)
      /\ AWS.FunctionLibraryTrigger.async_invoke t' payload h
         = (Raise AssertionError, h)
      /\ set_deployment_client t' client = t.
Proof.
  intros P W [name o] client record payload fuel h Ho Hser. simpl in Ho.
  subst o. injection Hser as <-.
  by exists (AWS.LibraryTrigger.Build _ name None).
Qed.

Lemma library_trigger_needs_its_client_witness :
  exists t',
    AWS.LibraryTrigger.deserialize
      (JDict [("type", JStr "Library"); ("name", JStr "f")]) = Ok t'
    /\ set_deployment_client t' tt = Examples.library_trigger.
Proof.
  destruct (@library_trigger_needs_its_client _ (Reference.world 0)
              Examples.library_trigger tt _ Examples.a_payload 0 []
              eq_refl eq_refl)
    as (t' & Hdes & _ & _ & _ & Hset).
  exists t'. split; [exact Hdes|exact Hset].
Defined.

(** ** More on fragments *)

Lemma dict_get_set_Some {V} (k k' : string) (v v' : V)
    (d : list (string * V)) :
  dict_get k (dict_set k' v' d) = Some v ->
  (k = k' /\ v = v') \/ (k <> k' /\ dict_get k d = Some v).
Proof.
  destruct (decide (k = k')) as [->|Hne].
  - rewrite dict_get_set_eq. intros [= ->]. by left.
  - rewrite dict_get_set_ne by done. by right.
Qed.

Lemma dict_set_length {V} (k : string) (x : V) (d : list (string * V)) :
  (length (dict_set k x d) <= S (length d))%nat.
Proof.
  induction d as [|[k0 v0] d IHd]; simpl; [lia|].
  destruct (String.eqb k k0); simpl; lia.
Qed.

Lemma param_entries_step_only (params : list string)
    (acc : list (string * json)) (k : string) (v : json) :
  dict_get k
    (fold_left
       (fun entries param =>
          dict_set (param +:+ ".$") (JStr ("$.payload." +:+ param)) entries)
       params acc) = Some v ->
  dict_get k acc = Some v
  \/ exists p, p ∈ params /\ k = p +:+ ".$"
               /\ v = JStr ("$.payload." +:+ p).
Proof.
  revert acc. induction params as [|q params IH]; intros acc; simpl.
  - by left.
  - intros Hk. apply IH in Hk as [Hk|(p & Hp & -> & ->)].
    + apply dict_get_set_Some in Hk as [[-> ->]|[_ Hk]]; [|by left].
      right. exists q. split; [|done]. apply elem_of_cons. by left.
    + right. exists p. split; [|done]. apply elem_of_cons. by right.
Qed.

(** X22: the dictionary [encode_map] builds for [common_params] holds
    nothing but references: every entry is either [array_element.$], bound
    to the element of the iteration, or [p.$] for a named parameter [p],
    bound to [$.payload.p]; there are at most as many entries as names plus
    one. *)
Theorem param_entries_are_references :
  forall (params : list string),
    (forall k v,
        dict_get k (SFNGenerator.param_entries params) = Some v ->
        (k = "array_element.$" /\ v = JStr "$$.Map.Item.Value")
        \/ exists p, p ∈ params /\ k = p +:+ ".$"
                     /\ v = JStr ("$.payload." +:+ p))
    /\ (length (SFNGenerator.param_entries params) <= S (length params))%nat.
Proof.
  intros params. split.
  - intros k v Hk. unfold SFNGenerator.param_entries in Hk.
    apply param_entries_step_only in Hk as [Hk|Hk]; [|by right].
    left. simpl in Hk. destruct (String.eqb k "array_element.$") eqn:E;
      [|done].
    apply String.eqb_eq in E. by injection Hk as <-.
  - unfold SFNGenerator.param_entries.
    change (S (length params))
      with (length [("array_element.$", JStr "$$.Map.Item.Value")]
            + length params)%nat.
    generalize [("array_element.$", JStr "$$.Map.Item.Value")].
    induction params as [|q params IH]; intros acc; simpl; [lia|].
    specialize (IH (dict_set (q +:+ ".$") (JStr ("$.payload." +:+ q)) acc)).
    pose proof (dict_set_length (q +:+ ".$")
                  (JStr ("$.payload." +:+ q)) acc).
    lia.
Qed.

(** ** Parallel fragments through [postprocess] *)

Lemma rmap_reindex_branch
    (bs : list (list (string * json)
                * list (string * list (string * json)))) :
  Forall (fun b =>
            dict_get "States" (fst b)
            = Some (JList (map (fun nd => JDict (snd nd)) (snd b)))
            /\ Forall (fun nd => dict_get "Name" (snd nd)
                                 = Some (JStr (fst nd))) (snd b)
            /\ NoDup (map fst (snd b))) bs ->
  rmap SFNGenerator.reindex_branch (map (fun b => JDict (fst b)) bs)
  = Ok (map (fun b =>
               JDict (dict_set "States"
                        (JDict (map (fun nd =>
                                       (fst nd,
                                        JDict (dict_del "Name" (snd nd))))
                                  (snd b)))
                        (fst b))) bs).
Proof.
  induction 1 as [|[b items] bs (Hst & Hnamed & Hnd) _ IH]; simpl; [done|].
  simpl in Hst, Hnamed, Hnd.
  unfold SFNGenerator.reindex_branch at 1. simpl. rewrite Hst. simpl.
  rewrite (list2dict_named "Name" items Hnamed Hnd). simpl.
  by rewrite IH.
Qed.

(** X23: [postprocess] re-indexes the branches of a fragment that has
    [Branches]: in each branch the list under [States] becomes the
    dictionary from the name of each state to the state without its [Name]
    entry, and the branch is otherwise unchanged.  Only this level is
    re-indexed: a state inside a branch keeps whatever [Branches] it has. *)
Theorem postprocess_reindexes_branches :
  forall (self : SFNGenerator.t) (n : string) (fd : list (string * json))
         (bs : list (list (string * json)
                     * list (string * list (string * json)))),
    dict_get "Name" fd = Some (JStr n) ->
    dict_get "Branches" fd = Some (JList (map (fun b => JDict (fst b)) bs)) ->
    Forall (fun b =>
              dict_get "States" (fst b)
              = Some (JList (map (fun nd => JDict (snd nd)) (snd b)))
              /\ Forall (fun nd => dict_get "Name" (snd nd)
                                   = Some (JStr (fst nd))) (snd b)
              /\ NoDup (map fst (snd b))) bs ->
    SFNGenerator.postprocess self [APayloads [JDict fd]]
    = Ok (JDict
            [("Comment", JStr "SeBS auto-generated benchmark");
             ("StartAt", JStr (State_name (SFNGenerator.root self)));
             ("States",
              JDict
                [(n,
                  JDict
                    (dict_set "Branches"
                       (JList
                          (map (fun b =>
                                  JDict
                                    (dict_set "States"
                                       (JDict
                                          (map (fun nd =>
                                                  (fst nd,
                                                   JDict (dict_del "Name"
                                                            (snd nd))))
                                             (snd b)))
                                       (fst b))) bs))
                       (dict_del "Name" fd)))])]).
Proof.
  intros self n fd bs Hn Hb Hall.
  simpl. unfold SFNGenerator.postprocess_body, list2dict. simpl.
  rewrite Hn. simpl. rewrite dict_get_del_ne, Hb by done. simpl.
  by rewrite (rmap_reindex_branch bs Hall).
Qed.

Lemma postprocess_reindexes_branches_witness :
  SFNGenerator.postprocess (Examples.sfn ∅)
    [APayloads
       [JDict [("Name", JStr "p");
               ("Branches",
                JList [JDict [("StartAt", JStr "A");
                              ("States",
                               JList [JDict [("Name", JStr "A");
                                             ("Type", JStr "Task")]])]])]]]
  = Ok (JDict
          [("Comment", JStr "SeBS auto-generated benchmark");
           ("StartAt", JStr "a");
           ("States",
            JDict [("p",
                    JDict [("Branches",
                            JList [JDict [("StartAt", JStr "A");
                                          ("States",
                                           JDict [("A",
                                                   JDict [("Type",
                                                           JStr "Task")])])]])])])]).
Proof.
  apply (postprocess_reindexes_branches (Examples.sfn ∅) "p"
           [("Name", JStr "p");
            ("Branches",
             JList [JDict [("StartAt", JStr "A");
                           ("States",
                            JList [JDict [("Name", JStr "A");
                                          ("Type", JStr "Task")]])]])]
           [([("StartAt", JStr "A");
              ("States",
               JList [JDict [("Name", JStr "A"); ("Type", JStr "Task")]])],
             [("A", [("Name", JStr "A"); ("Type", JStr "Task")])])]
           eq_refl eq_refl).
  repeat constructor. intros Hin. by apply elem_of_nil in Hin.
Defined.

(** ** The body of a function's answer *)

Lemma getitem_set_ne (k k' : string) (v : json) (d : list (string * json)) :
  k <> k' -> getitem (JDict (dict_set k' v d)) k = getitem (JDict d) k.
Proof. intros Hne. unfold getitem. by rewrite dict_get_set_ne. Qed.

Lemma getitem_set_eq (k : string) (v : json) (d : list (string * json)) :
  getitem (JDict (dict_set k v d)) k = Ok v.
Proof. unfold getitem. by rewrite dict_get_set_eq. Qed.

(** X24: the function library trigger reads the output of the benchmark the
    same way whether the function returned its body as a dictionary or as
    the text of one.  Take an answer of the platform whose payload holds the
    dictionary [b] as body, and replace the payload by one whose body is a
    text that [json.loads] turns into [b]: the result is the same, whatever
    the status, the metadata and the log of the answer are. *)
Theorem body_as_dictionary_or_text :
  forall `{Platform} (aws_result : ExecutionResult)
         (ret : list (string * json)) (payload' out out' text : json)
         (b : list (string * json)),
    (p <- getitem (JDict ret) "Payload";; json_loads p) = Ok out ->
    getitem out "body" = Ok (JDict b) ->
    json_loads payload' = Ok out' ->
    getitem out' "body" = Ok text ->
    (forall d, text <> JDict d) ->
    json_loads text = Ok (JDict b) ->
    AWS.FunctionLibraryTrigger.read_result aws_result
      (JDict (dict_set "Payload" payload' ret))
    = AWS.FunctionLibraryTrigger.read_result aws_result (JDict ret).
Proof.
  intros P aws_result ret payload' out out' text b Hout Hbody Hout' Hbody'
    Htext Hloads.
  unfold AWS.FunctionLibraryTrigger.read_result.
  rewrite !getitem_set_ne by done. rewrite getitem_set_eq.
  simpl in Hout |- *.
  destruct (dict_get "ResponseMetadata" ret) as [meta|]; simpl; [|done].
  destruct (getitem meta "RequestId") as [rid|]; simpl; [|done].
  destruct (dict_get "StatusCode" ret) as [status|]; simpl; [|done].
  destruct (negb (eq_int status 200)); [done|].
  destruct (dict_get "FunctionError" ret); [done|].
  destruct (dict_get "LogResult" ret) as [log|]; simpl; [|done].
  destruct (b64decode log) as [text_log|]; simpl; [|done].
  destruct (dict_get "Payload" ret) as [p|]; simpl in Hout; [|done].
  simpl. rewrite Hout, Hout'. simpl.
  destruct (parse_aws_report text_log _) as [res|]; simpl; [|done].
  rewrite Hbody, Hbody'. simpl.
  destruct text; try (by rewrite Hloads). by destruct (Htext d).
Qed.

Lemma body_as_dictionary_or_text_witness :
  @AWS.FunctionLibraryTrigger.read_result Examples.text_platform
    (@from_times Examples.text_platform 0 1)
    (JDict (dict_set "Payload" (JDict [("body", JStr "{}")])
              (Examples.answer_with_body (JDict []))))
  = @AWS.FunctionLibraryTrigger.read_result Examples.text_platform
      (@from_times Examples.text_platform 0 1)
      (JDict (Examples.answer_with_body (JDict []))).
Proof.
  apply (@body_as_dictionary_or_text Examples.text_platform
           (@from_times Examples.text_platform 0 1)
           (Examples.answer_with_body (JDict []))
           (JDict [("body", JStr "{}")])
           (JDict [("body", JDict [])])
           (JDict [("body", JStr "{}")])
           (JStr "{}") []);
    try reflexivity.
  intros d Hd. discriminate Hd.
Defined.
